(** * MemoAI: the note ingestion script (ProcessNotesWithGemini.ps1)

    A shallow embedding of the PowerShell batch script that ships in the
    repository's README: it loads the notes already stored in a JSON file,
    asks an external model whether each text file is a note, lets the model
    draft a JSON object for it, fills in the missing fields, stamps [id] and
    [order], and writes the whole collection back.

    Conventions of the embedding.
    - Text is [string]; the character classes of the .NET regular
      expressions ([\s], [\d]) and of [String.Trim] are modelled on their
      ASCII part.
    - Numbers are mathematical integers ([Z]).  [Measure-Object] returns its
      maximum as a double; the embedding keeps it exact, which is what the
      double is below 2^53.  Fractional JSON numbers are carried as [VOther].
    - A PowerShell object is the ordered list of its note properties.
      Member access and [Add-Member] find a property whatever the letter
      case of its name; the [Contains] test of the script does not.
    - What the platform returns is an input of the model: the text of a
      file, the replies to the HTTP requests, the object [ConvertFrom-Json]
      parses a text to.  The generator is asked for one JSON object;
      generated text that is valid JSON of another kind (an array, a
      number) is outside the model, and so are stored collections whose
      elements are not objects.
    - The pauses ([Start-Sleep]) and the console output are left out. *)

From Stdlib Require Import ZArith List String Ascii Bool Lia.
From Stdlib Require Import Permutation Sorted DecimalString DecimalPos.
Import ListNotations.

Local Open Scope string_scope.
Local Open Scope list_scope.
Local Open Scope Z_scope.

(* ================================================================== *)
(** * Characters and text *)

(** [\s] and [Char.IsWhiteSpace]: tab, line feed, vertical tab, form feed,
    carriage return, space. *)
Definition is_space (c : ascii) : bool :=
  let n := nat_of_ascii c in
  (Nat.leb 9 n && Nat.leb n 13) || Nat.eqb n 32.

(** [\d]. *)
Definition is_digit (c : ascii) : bool :=
  let n := nat_of_ascii c in Nat.leb 48 n && Nat.leb n 57.

Definition digit_value (c : ascii) : Z := Z.of_nat (nat_of_ascii c) - 48.

Definition to_lower (c : ascii) : ascii :=
  let n := nat_of_ascii c in
  if Nat.leb 65 n && Nat.leb n 90 then ascii_of_nat (n + 32) else c.

(** Character equality of the case-insensitive operators ([-like],
    [-replace], member lookup). *)
Definition eqb_ci (c d : ascii) : bool := Ascii.eqb (to_lower c) (to_lower d).

Fixpoint string_eqb_ci (s t : string) : bool :=
  match s, t with
  | EmptyString, EmptyString => true
  | String c s', String d t' => eqb_ci c d && string_eqb_ci s' t'
  | _, _ => false
  end.

Fixpoint string_forallb (p : ascii -> bool) (s : string) : bool :=
  match s with
  | EmptyString => true
  | String c s' => p c && string_forallb p s'
  end.

(** [[string]::IsNullOrWhiteSpace] on a string that is not null. *)
Definition IsWhiteSpace (s : string) : bool := string_forallb is_space s.

(** [[string]::IsNullOrWhiteSpace]. *)
Definition IsNullOrWhiteSpace (s : option string) : bool :=
  match s with
  | None => true
  | Some t => IsWhiteSpace t
  end.

(** [\s*] at the head of a text: what is left after the white space. *)
Fixpoint TrimStart (s : string) : string :=
  match s with
  | EmptyString => EmptyString
  | String c s' => if is_space c then TrimStart s' else s
  end.

Fixpoint TrimEnd (s : string) : string :=
  match s with
  | EmptyString => EmptyString
  | String c s' =>
      match TrimEnd s' with
      | EmptyString => if is_space c then EmptyString else String c EmptyString
      | r => String c r
      end
  end.

(** [String.Trim()]. *)
Definition Trim (s : string) : string := TrimEnd (TrimStart s).

(** Is [p] a prefix of [s], letter case ignored? *)
Fixpoint starts_with_ci (p s : string) : bool :=
  match p, s with
  | EmptyString, _ => true
  | String c p', String d s' => eqb_ci c d && starts_with_ci p' s'
  | String _ _, EmptyString => false
  end.

(** [-like]: wildcard matching, letter case ignored.  [*] stands for any
    run of characters and [?] for one character (character ranges, which
    the script's pattern does not use, are not modelled). *)
Fixpoint like (pattern s : string) : bool :=
  match pattern with
  | EmptyString => match s with EmptyString => true | _ => false end
  | String p pattern' =>
      if Ascii.eqb p "*" then
        (fix star (t : string) : bool :=
           like pattern' t ||
           match t with
           | EmptyString => false
           | String _ t' => star t'
           end) s
      else
        match s with
        | EmptyString => false
        | String c s' =>
            (Ascii.eqb p "?" || eqb_ci p c) && like pattern' s'
        end
  end.

(** The decimal text of an integer, as string interpolation and the
    operators that take text give it. *)
Definition Z_to_string (z : Z) : string := NilEmpty.string_of_int (Z.to_int z).

(** [-match '^\d+$']: one or more digits, up to the end of the text or up
    to a line feed that ends it (the [$] of .NET). *)
Fixpoint digits_to_end (s : string) : bool :=
  match s with
  | EmptyString => true
  | String c s' =>
      if is_digit c then digits_to_end s'
      else Ascii.eqb c "010" && match s' with EmptyString => true | _ => false end
  end.

Definition match_digits (s : string) : bool :=
  match s with
  | String c _ => is_digit c && digits_to_end s
  | EmptyString => false
  end.

(** The number a run of digits at the head of a text denotes. *)
Fixpoint digits_value (acc : Z) (s : string) : Z :=
  match s with
  | String c s' => if is_digit c then digits_value (10 * acc + digit_value c) s' else acc
  | EmptyString => acc
  end.

(** [-replace '[-_]', ' ']. *)
Fixpoint replace_separators (s : string) : string :=
  match s with
  | EmptyString => EmptyString
  | String c s' =>
      String (if Ascii.eqb c "-" || Ascii.eqb c "_" then " "%char else c)
             (replace_separators s')
  end.

(** [-split '\s+']: the pieces between the runs of white space.  A text
    that begins (ends) with white space has an empty first (last) piece.
    [in_sep] says that the character before was white space. *)
Fixpoint split_aux (in_sep : bool) (s : string) : list string :=
  match s with
  | EmptyString => [EmptyString]
  | String c s' =>
      if is_space c then
        if in_sep then split_aux true s' else EmptyString :: split_aux true s'
      else
        match split_aux false s' with
        | piece :: pieces => String c piece :: pieces
        | [] => [String c EmptyString]
        end
  end.

Definition split_ws (s : string) : list string := split_aux false s.

(** [-join ' ']. *)
Fixpoint join_space (l : list string) : string :=
  match l with
  | [] => EmptyString
  | [x] => x
  | x :: rest => x ++ " " ++ join_space rest
  end.

(** ** The code fences

    [$s -replace '^\s*```json\s*', '' -replace '\s*```\s*$', '']. *)

Definition fence : string := "```".

(** The text after its first [n] characters. *)
Fixpoint skip (n : nat) (s : string) : string :=
  match n, s with
  | O, _ => s
  | S n', String _ s' => skip n' s'
  | S _, EmptyString => EmptyString
  end.

(** First replacement: white space, the fence and the word json (in any
    letter case) at the very start, with the white space after them. *)
Definition strip_leading_fence (s : string) : string :=
  let t := TrimStart s in
  if starts_with_ci "```json" t then TrimStart (skip 7 t) else s.

(** Does [\s*```\s*$] match the whole of [s]? *)
Definition is_trailing_fence (s : string) : bool :=
  match TrimStart s with
  | String a (String b (String c rest)) =>
      Ascii.eqb a "`" && Ascii.eqb b "`" && Ascii.eqb c "`" && IsWhiteSpace rest
  | _ => false
  end.

(** Second replacement: the leftmost place from which [\s*```\s*$] matches
    is where the text is cut. *)
Fixpoint strip_trailing_fence (s : string) : string :=
  if is_trailing_fence s then EmptyString
  else match s with
       | EmptyString => EmptyString
       | String c s' => String c (strip_trailing_fence s')
       end.

Definition strip_fences (s : string) : string :=
  strip_trailing_fence (strip_leading_fence s).

(* ================================================================== *)
(** * Values and objects *)

(** What a property of a parsed JSON object holds.  [VOther] is any other
    value (a nested array or object, a fractional number), carried as the
    text PowerShell converts it to. *)
Inductive PSValue : Type :=
| VNull
| VBool (b : bool)
| VInt (z : Z)
| VStr (s : string)
| VOther (text : string).

(** A [PSCustomObject]: its note properties, in order. *)
Definition PSObject : Type := list (string * PSValue).

(** Conversion to text, as [-match] and a [[string]] parameter do it. *)
Definition ps_string (v : PSValue) : string :=
  match v with
  | VNull => EmptyString
  | VBool true => "True"
  | VBool false => "False"
  | VInt z => Z_to_string z
  | VStr s => s
  | VOther t => t
  end.

(** [$o.PSObject.Properties.Name.Contains(name)]: the list of names holds
    exactly [name] (the method compares with letter case). *)
Definition Contains (o : PSObject) (name : string) : bool :=
  existsb (String.eqb name) (map fst o).

(** [$o.name]: member access finds the property whatever the letter case
    of its name; a missing property reads as [$null]. *)
Fixpoint get_property (o : PSObject) (name : string) : option PSValue :=
  match o with
  | [] => None
  | (k, v) :: rest =>
      if string_eqb_ci k name then Some v else get_property rest name
  end.

Definition remove_property (o : PSObject) (name : string) : PSObject :=
  filter (fun kv => negb (string_eqb_ci (fst kv) name)) o.

(** [$o | Add-Member -MemberType NoteProperty -Name name -Value v], with or
    without [-Force].  Members are found whatever the letter case.  When
    one of that name exists, [-Force] removes it and adds the new one;
    without [-Force] the cmdlet reports an error that does not stop the
    script, and the object stays as it was. *)
Definition Add_Member (force : bool) (name : string) (v : PSValue)
    (o : PSObject) : PSObject :=
  match get_property o name with
  | None => o ++ [(name, v)]
  | Some _ => if force then remove_property o name ++ [(name, v)] else o
  end.

(* ================================================================== *)
(** * Identity: the next id (script lines 197-203) *)

(** The text [-match] sees for [$_.id]. *)
Definition id_text (o : PSObject) : string :=
  match get_property o "id" with
  | Some v => ps_string v
  | None => EmptyString
  end.

(** [{$_.id -match '^\d+$'}]. *)
Definition has_numeric_id (o : PSObject) : bool := match_digits (id_text o).

(** The number [Measure-Object] takes a property value for.  Text is
    converted for the forms that pass the filter above. *)
Definition numeric_value (v : PSValue) : option Z :=
  match v with
  | VNull => None
  | VBool b => Some (if b then 1 else 0)
  | VInt z => Some z
  | VStr s | VOther s => if match_digits s then Some (digits_value 0 s) else None
  end.

Definition id_number (o : PSObject) : option Z :=
  match get_property o "id" with
  | Some v => numeric_value v
  | None => None
  end.

(** [... | Measure-Object -Property id -Maximum).Maximum]: the largest
    number among the objects that have one; nothing is measured, and the
    member reads as [$null], when there is none. *)
Fixpoint Measure_Maximum (l : list PSObject) : option Z :=
  match l with
  | [] => None
  | o :: rest =>
      match id_number o, Measure_Maximum rest with
      | Some n, Some m => Some (Z.max n m)
      | Some n, None => Some n
      | None, r => r
      end
  end.

(** [$nextId = if ($allNotes.Count -gt 0) { try { (...).Maximum + 1 }
    catch { 1 } } else { 1 }].  [$null + 1] is 1.  Nothing in the
    expression throws, so the [catch] is never entered. *)
Definition initial_nextId (allNotes : list PSObject) : Z :=
  if Nat.ltb 0 (List.length allNotes) then
    match Measure_Maximum (filter has_numeric_id allNotes) with
    | Some m => m + 1
    | None => 1
    end
  else 1.

(* ================================================================== *)
(** * The Classification Gate (script lines 272-291) *)

(** The reply of the model, as [Invoke-RestMethod] parses it; every level
    may be missing. *)
Record Part : Type := { text : option string }.
Record Content : Type := { parts : option (list Part) }.
Record Candidate : Type := { content : option Content }.
Record Response : Type := { candidates : option (list Candidate) }.

(** The "safe extraction" of [candidates[0].content.parts[0].text.Trim()];
    [None] is the default [$null]. *)
Definition extract_text (response : option Response) : option string :=
  match response with
  | Some r =>
      match candidates r with
      | Some (candidate :: _) =>
          match content candidate with
          | Some c =>
              match parts c with
              | Some (part :: _) =>
                  match text part with
                  | Some t => Some (Trim t)
                  | None => None
                  end
              | _ => None
              end
          | None => None
          end
      | _ => None
      end
  | None => None
  end.

(** [$classificationResult -like 'Yes*']; [$null] is not like anything. *)
Definition is_note (classificationResult : option string) : bool :=
  match classificationResult with
  | Some s => like "Yes*" s
  | None => false
  end.

(* ================================================================== *)
(** * The API helper (script lines 91-155) *)

(** What one HTTP request comes to. *)
Inductive Attempt : Type :=
| Replied (r : option Response)
| WebException (statusCode : Z)
| OtherException.

(** What a call of [Invoke-GeminiApi] comes to. *)
Inductive ApiOutcome : Type :=
| Returned (r : option Response)
| Thrown.

Definition retryable (statusCode : Z) : bool :=
  (statusCode =? 429) || ((500 <=? statusCode) && (statusCode <=? 599)).

(** The [while ($attempt -lt $MaxRetries)] loop.  [server n] is what the
    [n]-th request of this call meets; [remaining] is
    [$MaxRetries - $attempt].  The result carries the number of requests
    sent. *)
Fixpoint api_loop (server : nat -> Attempt) (remaining attempt : nat)
  : ApiOutcome * nat :=
  match remaining with
  | O => (Returned None, attempt)
  | S remaining' =>
      let attempt := S attempt in
      match server attempt with
      | Replied r => (Returned r, attempt)
      | WebException statusCode =>
          if retryable statusCode then
            match remaining' with
            | O => (Thrown, attempt)
            | S _ => api_loop server remaining' attempt
            end
          else (Thrown, attempt)
      | OtherException =>
          match remaining' with
          | O => (Thrown, attempt)
          | S _ => api_loop server remaining' attempt
          end
      end
  end.

Definition maxRetries : nat := 2.

Definition Invoke_GeminiApi (server : nat -> Attempt) : ApiOutcome * nat :=
  api_loop server maxRetries 0.

(* ================================================================== *)
(** * The Schema Normalizer (script lines 371-406) *)

(** [[string]::IsNullOrWhiteSpace($jsonObject.title)]. *)
Definition title_is_blank (o : PSObject) : bool :=
  IsNullOrWhiteSpace (option_map ps_string (get_property o "title")).

(** Lines 379-387. *)
Definition fallback_title (fileBaseName fileContent : string) (nextId : Z)
  : string :=
  let fallbackTitle := replace_separators fileBaseName in
  if IsWhiteSpace fallbackTitle then
    let fallbackTitle := join_space (firstn 5 (split_ws fileContent)) in
    if IsWhiteSpace fallbackTitle then "Note " ++ Z_to_string nextId
    else fallbackTitle
  else fallbackTitle.

(** Lines 371-374; this [Add-Member] has no [-Force]. *)
Definition ensure_text (fileContent : string) (o : PSObject) : PSObject :=
  if negb (Contains o "text")
  then Add_Member false "text" (VStr fileContent) o
  else o.

(** Lines 377-390. *)
Definition ensure_title (fileBaseName fileContent : string) (nextId : Z)
    (o : PSObject) : PSObject :=
  if negb (Contains o "title") || title_is_blank o
  then Add_Member true "title"
         (VStr (fallback_title fileBaseName fileContent nextId)) o
  else o.

(** Lines 394-406, one default field. *)
Definition ensure_default (name : string) (v : PSValue) (o : PSObject)
  : PSObject :=
  if negb (Contains o name) then Add_Member true name v o else o.

Definition normalize (fileBaseName fileContent : string) (nextId : Z)
    (o : PSObject) : PSObject :=
  ensure_default "isPrivate" (VBool false)
    (ensure_default "priority" (VStr "Medium")
       (ensure_default "status" (VStr "Open")
          (ensure_title fileBaseName fileContent nextId
             (ensure_text fileContent o)))).

(** Lines 369-370 and 409: the stamps, all with [-Force]. *)
Definition stamp_identity (nextId : Z) (fileDate : string) (o : PSObject)
  : PSObject :=
  Add_Member true "createdAt" (VStr fileDate)
    (Add_Member true "id" (VInt nextId) o).

Definition stamp_order (currentOrder : Z) (o : PSObject) : PSObject :=
  Add_Member true "order" (VInt currentOrder) o.

(** Lines 366-409: from the parsed object to the note that is appended. *)
Definition build_note (fileBaseName fileContent fileDate : string)
    (nextId currentOrder : Z) (jsonObject : PSObject) : PSObject :=
  stamp_order currentOrder
    (normalize fileBaseName fileContent nextId
       (stamp_identity nextId fileDate jsonObject)).

(* ================================================================== *)
(** * The ingestion loop (script lines 227-448) *)

(** One [.txt] file, with what the outside world answers for it:
    [Get_Content] is what [Get-Content -Raw] returns ([None]: it throws),
    [fileDate] the formatted last write time, [classification] and
    [generation] what the requests of the two API calls meet. *)
Record TxtFile : Type := {
  Name : string;
  BaseName : string;
  Get_Content : option string;
  fileDate : string;
  classification : nat -> Attempt;
  generation : nat -> Attempt
}.

(** The variables of the run.  [apiRequests] is not a variable of the
    script: it counts the HTTP requests sent so far. *)
Record State : Type := {
  allNotes : list PSObject;
  nextId : Z;
  currentOrder : Z;
  processedCount : Z;
  addedCount : Z;
  apiRequests : nat
}.

Definition count_file (st : State) : State :=
  {| allNotes := allNotes st; nextId := nextId st;
     currentOrder := currentOrder st;
     processedCount := processedCount st + 1;
     addedCount := addedCount st; apiRequests := apiRequests st |}.

Definition count_requests (n : nat) (st : State) : State :=
  {| allNotes := allNotes st; nextId := nextId st;
     currentOrder := currentOrder st;
     processedCount := processedCount st;
     addedCount := addedCount st; apiRequests := (apiRequests st + n)%nat |}.

(** Lines 415-420. *)
Definition append_note (note : PSObject) (st : State) : State :=
  {| allNotes := allNotes st ++ [note];
     nextId := nextId st + 1;
     currentOrder := currentOrder st + 1;
     processedCount := processedCount st;
     addedCount := addedCount st + 1;
     apiRequests := apiRequests st |}.

Section Pipeline.

(** [ConvertFrom-Json -ErrorAction Stop] on the generated text: the
    parsed object, or [None] when the cmdlet throws.  The model is asked
    for a single JSON object; a text that is valid JSON of another kind
    is outside this model. *)
Variable ConvertFrom_Json : string -> option PSObject.

(** Lines 357-434: what is done with the text of the second reply. *)
Definition ingest_generated (f : TxtFile) (fileContent : string)
    (generatedJsonString : option string) (st : State) : State :=
  match generatedJsonString with
  | Some generated =>
      if negb (IsWhiteSpace generated) then
        match ConvertFrom_Json (strip_fences generated) with
        | Some jsonObject =>
            append_note
              (build_note (BaseName f) fileContent (fileDate f)
                 (nextId st) (currentOrder st) jsonObject)
              st
        | None => st
        end
      else st
  | None => st
  end.

(** Lines 290-438: after the classification reply is in. *)
Definition generate_note (f : TxtFile) (fileContent : string)
    (classificationResult : option string) (st : State) : State :=
  if is_note classificationResult then
    let (outcome, sent) := Invoke_GeminiApi (generation f) in
    let st := count_requests sent st in
    match outcome with
    | Thrown => st
    | Returned response2 =>
        let generatedJsonString := extract_text response2 in
        match response2, generatedJsonString with
        | None, None => st
        | _, _ => ingest_generated f fileContent generatedJsonString st
        end
    end
  else st.

(** The body of the [foreach], with its [try]/[catch] and [continue]. *)
Definition process_file (st : State) (f : TxtFile) : State :=
  let st := count_file st in
  match Get_Content f with
  | None => st
  | Some fileContent =>
      if IsWhiteSpace fileContent then st
      else
        let (outcome, sent) := Invoke_GeminiApi (classification f) in
        let st := count_requests sent st in
        match outcome with
        | Thrown => st
        | Returned response1 =>
            let classificationResult := extract_text response1 in
            match response1, classificationResult with
            | None, None => st
            | _, _ => generate_note f fileContent classificationResult st
            end
        end
  end.

Definition process_files (st : State) (files : list TxtFile) : State :=
  fold_left process_file files st.

End Pipeline.

(* ================================================================== *)
(** * The Collection Store (script lines 166-195 and 450-469) *)

(** What the output file holds, read through [ConvertFrom-Json]. *)
Inductive FileContent : Type :=
| JsonArray (notes : list PSObject)
| JsonObject (note : PSObject)
| OtherText.

(** Lines 166-195; [None] is a file that does not exist.  Blank text,
    text that does not parse and JSON that is neither an array nor an
    object all start an empty list. *)
Definition load (OutputJsonFile : option FileContent) : list PSObject :=
  match OutputJsonFile with
  | Some (JsonArray notes) => notes
  | Some (JsonObject note) => [note]
  | Some OtherText => []
  | None => []
  end.

(** The order [Sort-Object -Property id] sorts by: a missing or null id
    comes first, integers go by value.  Other values are compared as text;
    the model takes the character codes, letter case ignored. *)
Fixpoint string_leb_ci (s t : string) : bool :=
  match s, t with
  | EmptyString, _ => true
  | String _ _, EmptyString => false
  | String c s', String d t' =>
      let m := nat_of_ascii (to_lower c) in
      let n := nat_of_ascii (to_lower d) in
      if Nat.ltb m n then true
      else if Nat.ltb n m then false
      else string_leb_ci s' t'
  end.

Definition id_leb (a b : PSObject) : bool :=
  match get_property a "id", get_property b "id" with
  | None, _ | Some VNull, _ => true
  | _, None | _, Some VNull => false
  | Some (VInt x), Some (VInt y) => x <=? y
  | Some u, Some v => string_leb_ci (ps_string u) (ps_string v)
  end.

Fixpoint insert_sorted (x : PSObject) (l : list PSObject) : list PSObject :=
  match l with
  | [] => [x]
  | y :: l' => if id_leb x y then x :: l else y :: insert_sorted x l'
  end.

Definition Sort_Object (l : list PSObject) : list PSObject :=
  fold_right insert_sorted [] l.

(** [$sortedNotes | ConvertTo-Json -Depth 10].  The pipeline hands the
    cmdlet the notes one by one: one note comes out as a JSON object, two
    or more as a JSON array, none as nothing. *)
Definition ConvertTo_Json (pipeline : list PSObject) : option FileContent :=
  match pipeline with
  | [] => None
  | [note] => Some (JsonObject note)
  | _ => Some (JsonArray pipeline)
  end.

(** [... | Out-File -FilePath $OutputJsonFile]; a failure leaves the file as
    it was. *)
Definition Out_File (writable : bool) (new : FileContent)
    (OutputJsonFile : option FileContent) : option FileContent :=
  if writable then Some new else OutputJsonFile.

(** Lines 450-469. *)
Definition save (writable : bool) (notes : list PSObject)
    (OutputJsonFile : option FileContent) : option FileContent :=
  if Nat.ltb 0 (List.length notes) then
    match ConvertTo_Json (Sort_Object notes) with
    | Some finalJson => Out_File writable finalJson OutputJsonFile
    | None => Out_File writable OtherText OutputJsonFile
    end
  else
    match OutputJsonFile with
    | None => Out_File writable (JsonArray []) OutputJsonFile
    | Some _ => OutputJsonFile
    end.

(* ================================================================== *)
(** * The whole script *)

Record Environment : Type := {
  folderExists : bool;
  OutputJsonFile : option FileContent;
  writable : bool;
  txtFiles : list TxtFile
}.

(** How the script ends: [Exit 1] (no folder), [Exit 0] (no text file),
    or it runs to its last line. *)
Inductive Ending : Type := Exit1 | Exit0 | Completed.

Record Run : Type := {
  ending : Ending;
  finalFile : option FileContent;
  finalState : State
}.

Definition initial_state (notes : list PSObject) : State :=
  {| allNotes := notes; nextId := initial_nextId notes; currentOrder := 0;
     processedCount := 0; addedCount := 0; apiRequests := 0 |}.

Definition script (ConvertFrom_Json : string -> option PSObject)
    (env : Environment) : Run :=
  if negb (folderExists env) then
    {| ending := Exit1; finalFile := OutputJsonFile env;
       finalState := initial_state [] |}
  else
    let st := initial_state (load (OutputJsonFile env)) in
    match txtFiles env with
    | [] => {| ending := Exit0; finalFile := OutputJsonFile env; finalState := st |}
    | files =>
        let st := process_files ConvertFrom_Json st files in
        {| ending := Completed;
           finalFile := save (writable env) (allNotes st) (OutputJsonFile env);
           finalState := st |}
    end.

(* ================================================================== *)
(** * Notions used in the statements *)

(** ** The next id *)


(** ** The normalizer *)

Definition nonempty (s : string) : bool :=
  match s with EmptyString => false | String _ _ => true end.

(** The words of a text: its pieces between runs of white space, the
    empty pieces at the two ends left out. *)
Definition words (s : string) : list string := filter nonempty (split_ws s).

(** The title the rule "first five white-space-delimited tokens of the
    source text, joined by single spaces" describes. *)
Definition first_five_words (fileContent : string) : string :=
  join_space (firstn 5 (words fileContent)).

(** [name] holds [v] in [o]: the object has a property spelled exactly
    [name] with that value, and [$o.name] reads it. *)
Definition holds (o : PSObject) (name : string) (v : PSValue) : Prop :=
  In (name, v) o /\ get_property o name = Some v.

(** A name that differs from [name] in letter case only. *)
Definition case_variant (k name : string) : bool :=
  string_eqb_ci k name && negb (String.eqb k name).

(** The names the normalizer adds with [-Force]. *)
Definition forced_names : list string :=
  ["title"; "status"; "priority"; "isPrivate"].

Definition respelled (k : string) : bool := existsb (case_variant k) forced_names.

(** A note with the six required properties, the title not blank. *)
Definition complete (o : PSObject) : Prop :=
  Contains o "id" = true /\ Contains o "title" = true /\
  title_is_blank o = false /\ Contains o "text" = true /\
  Contains o "status" = true /\ Contains o "priority" = true /\
  Contains o "isPrivate" = true.

(** ** The code fences *)

(** The characters a text matched by [\s*```\s*$] is made of. *)
Definition fence_char (c : ascii) : bool := is_space c || Ascii.eqb c "`".

(** ** The ingestion loop *)

(** What the gate is given for a file: the trimmed text of the
    classification reply, [None] when the call throws or the reply
    carries no text. *)
Definition classification_signal (f : TxtFile) : option string :=
  match fst (Invoke_GeminiApi (classification f)) with
  | Returned r => extract_text r
  | Thrown => None
  end.

(** The payload of the generator for a file, in the same way. *)
Definition generator_payload (f : TxtFile) : option string :=
  match fst (Invoke_GeminiApi (generation f)) with
  | Returned r => extract_text r
  | Thrown => None
  end.

(** The collection and the two counters are as they were. *)
Definition unchanged (st st' : State) : Prop :=
  allNotes st' = allNotes st /\ nextId st' = nextId st /\
  currentOrder st' = currentOrder st /\ addedCount st' = addedCount st.

(** No usable payload: nothing comes back, or what comes back is blank or
    does not parse once the fences are off. *)
Definition no_usable_payload
    (ConvertFrom_Json : string -> option PSObject) (f : TxtFile) : Prop :=
  generator_payload f = None \/
  exists p, generator_payload f = Some p /\
            (IsWhiteSpace p = true \/ ConvertFrom_Json (strip_fences p) = None).

(** One more note, stamped with the two counters, which both go up by
    one. *)
Definition appended (st st' : State) : Prop :=
  exists note,
    allNotes st' = allNotes st ++ [note] /\
    nextId st' = nextId st + 1 /\
    currentOrder st' = currentOrder st + 1 /\
    addedCount st' = addedCount st + 1 /\
    holds note "id" (VInt (nextId st)) /\
    holds note "order" (VInt (currentOrder st)).

(** ** The Collection Store *)

(** The note has an integer as its [id]. *)
Definition has_int_id (o : PSObject) : Prop :=
  exists z, get_property o "id" = Some (VInt z).

(** Both notes have an integer as [id], the first not above the second. *)
Definition id_le (a b : PSObject) : Prop :=
  exists x y, get_property a "id" = Some (VInt x) /\
              get_property b "id" = Some (VInt y) /\ x <= y.

(** What a run that came to its last line has left in the output file,
    [old] being what the file held before. *)
Definition persisted (old : option FileContent) (r : Run) : Prop :=
  ending r = Completed /\
  match allNotes (finalState r) with
  | [] => finalFile r = match old with
                        | None => Some (JsonArray [])
                        | Some content => Some content
                        end
  | [note] => finalFile r = Some (JsonObject note)
  | _ :: _ :: _ =>
      exists sorted,
        finalFile r = Some (JsonArray sorted) /\
        Permutation (allNotes (finalState r)) sorted /\
        (Forall has_int_id (allNotes (finalState r)) ->
         StronglySorted id_le sorted)
  end.

(** ** Sample data *)

(** A stand-in for [ConvertFrom-Json] in the examples: it reads the text
    of the object without properties and throws on every other text. *)
Definition parse_empty_object (s : string) : option PSObject :=
  if String.eqb s "{}" then Some [] else None.

(** A reply that carries the text [s]. *)
Definition reply (s : string) : nat -> Attempt :=
  fun _ =>
    Replied (Some {| candidates := Some [ {| content := Some
      {| parts := Some [ {| text := Some s |} ] |} |} ] |}).

Definition line_feed : string := String "010" EmptyString.

Definition sample_date : string := "2024-08-16T10:00:00.000Z".

Definition sample_note : PSObject :=
  [ ("id", VInt 3); ("title", VStr "Groceries"); ("text", VStr "Buy milk");
    ("status", VStr "Closed"); ("priority", VStr "High");
    ("isPrivate", VBool true); ("dueDate", VStr "2024-09-01") ].

(** A file the gate accepts and the generator answers with the object
    without properties. *)
Definition accepted_file : TxtFile :=
  {| Name := "meeting-notes.txt"; BaseName := "meeting-notes";
     Get_Content := Some "Discuss Q3 roadmap"; fileDate := sample_date;
     classification := reply "Yes"; generation := reply "{}" |}.

(** The same, the answer of the generator between fences marked json. *)
Definition fenced_file : TxtFile :=
  {| Name := "meeting-notes.txt"; BaseName := "meeting-notes";
     Get_Content := Some "Discuss Q3 roadmap"; fileDate := sample_date;
     classification := reply "Yes";
     generation :=
       reply (fence ++ "json" ++ line_feed ++ "{}" ++ line_feed ++ fence) |}.

(** The same, between fences without the word. *)
Definition bare_fenced_file : TxtFile :=
  {| Name := "meeting-notes.txt"; BaseName := "meeting-notes";
     Get_Content := Some "Discuss Q3 roadmap"; fileDate := sample_date;
     classification := reply "Yes";
     generation := reply (fence ++ line_feed ++ "{}" ++ line_feed ++ fence) |}.

Definition rejected_file : TxtFile :=
  {| Name := "license.txt"; BaseName := "license";
     Get_Content := Some "Permission is hereby granted"; fileDate := sample_date;
     classification := reply "No."; generation := reply "{}" |}.

(** Accepted, and the generator sends a reply without candidates. *)
Definition silent_file : TxtFile :=
  {| Name := "idea.txt"; BaseName := "idea";
     Get_Content := Some "An idea"; fileDate := sample_date;
     classification := reply "Yes";
     generation := fun _ => Replied (Some {| candidates := None |}) |}.

(** Accepted, and the generator sends text that is not JSON. *)
Definition garbled_file : TxtFile :=
  {| Name := "idea.txt"; BaseName := "idea";
     Get_Content := Some "An idea"; fileDate := sample_date;
     classification := reply "Yes"; generation := reply "Sorry, I cannot" |}.

Definition blank_file : TxtFile :=
  {| Name := "empty.txt"; BaseName := "empty";
     Get_Content := Some (String " " (String "009" line_feed));
     fileDate := sample_date;
     classification := reply "Yes"; generation := reply "{}" |}.

Definition first_note : PSObject :=
  [ ("id", VInt 1); ("createdAt", VStr sample_date);
    ("text", VStr "Discuss Q3 roadmap"); ("title", VStr "meeting notes");
    ("status", VStr "Open"); ("priority", VStr "Medium");
    ("isPrivate", VBool false); ("order", VInt 0) ].

Definition one_file_env : Environment :=
  {| folderExists := true; OutputJsonFile := None; writable := true;
     txtFiles := [accepted_file] |}.

(** A file with the notes 5 and 2 already in it, and three text files of
    which the second is not a note. *)
Definition busy_env : Environment :=
  {| folderExists := true;
     OutputJsonFile := Some (JsonArray [ [("id", VInt 5)]; [("id", VInt 2)] ]);
     writable := true;
     txtFiles := [accepted_file; rejected_file; fenced_file] |}.

(** ** The API helper *)

(** A request whose failure the helper answers with another request, as
    long as it has attempts left: a rate-limit or server status, or an
    exception of another kind. *)
Definition retried (a : Attempt) : bool :=
  match a with
  | Replied _ => false
  | WebException statusCode => retryable statusCode
  | OtherException => true
  end.

(** A server that fails once with the status given and then replies. *)
Definition flaky_server (statusCode : Z) (s : string) : nat -> Attempt :=
  fun n => if Nat.eqb n 1 then WebException statusCode else reply s 2%nat.

(** ** The notes of a run *)

(** What every note the loop appends has: the two stamps and the date,
    a title that is not blank, the three default fields, and a text that
    [$note.text] reads. *)
Definition well_formed_note (o : PSObject) : Prop :=
  Contains o "id" = true /\ Contains o "createdAt" = true /\
  Contains o "order" = true /\
  Contains o "title" = true /\ title_is_blank o = false /\
  Contains o "status" = true /\ Contains o "priority" = true /\
  Contains o "isPrivate" = true /\ get_property o "text" <> None.


(** The names the script stamps. *)
Definition stamped (k : string) : bool :=
  string_eqb_ci k "id" || string_eqb_ci k "createdAt"
  || string_eqb_ci k "order".

(** ** More sample data *)


Definition stored_notes : list PSObject :=
  [ [("id", VInt 5); ("title", VStr "five")];
    [("id", VInt 2); ("title", VStr "two")] ].

Definition no_folder_env : Environment :=
  {| folderExists := false; OutputJsonFile := Some (JsonArray stored_notes);
     writable := true; txtFiles := [accepted_file] |}.

(** A reply whose text has white space around the word. *)
Definition padded_reply : option Response :=
  Some {| candidates := Some [ {| content := Some
    {| parts := Some [ {| text := Some (String " " (String "Y" (String "e"
         (String "s" (String "." line_feed))))) |} ] |} |} ] |}.

(* ================================================================== *)
(** * Facts about text *)

Lemma TrimStart_blank (s : string) :
  TrimStart s = EmptyString <-> IsWhiteSpace s = true.
Proof.
  unfold IsWhiteSpace.
  induction s as [|c s IH]; simpl.
  - tauto.
  - destruct (is_space c); simpl.
    + exact IH.
    + split; discriminate.
Qed.

Lemma TrimEnd_blank (s : string) :
  TrimEnd s = EmptyString <-> IsWhiteSpace s = true.
Proof.
  unfold IsWhiteSpace.
  induction s as [|c s IH]; simpl.
  - tauto.
  - destruct (TrimEnd s) eqn:E.
    + destruct (is_space c); simpl.
      * split; intros _; [apply IH|]; reflexivity.
      * split; discriminate.
    + split; [discriminate|].
      intros H. apply andb_true_iff in H. destruct H as [_ H].
      apply IH in H. discriminate.
Qed.

Lemma IsWhiteSpace_TrimStart (s : string) :
  IsWhiteSpace (TrimStart s) = IsWhiteSpace s.
Proof.
  unfold IsWhiteSpace.
  induction s as [|c s IH]; simpl; [reflexivity|].
  destruct (is_space c) eqn:E; simpl; [exact IH|].
  rewrite E. reflexivity.
Qed.

(** A text is empty after [Trim] exactly when [IsNullOrWhiteSpace] holds
    of it. *)
Lemma Trim_empty_iff (s : string) :
  Trim s = EmptyString <-> IsWhiteSpace s = true.
Proof.
  unfold Trim. rewrite TrimEnd_blank, IsWhiteSpace_TrimStart. tauto.
Qed.

(** The wildcard [*] alone matches every text. *)
Lemma like_star_any (s : string) : like "*" s = true.
Proof.
  induction s as [|c s IH]; [reflexivity|].
  simpl in *. exact IH.
Qed.

Lemma like_Yes_star (s : string) : like "Yes*" s = starts_with_ci "Yes" s.
Proof.
  destruct s as [|c1 [|c2 [|c3 rest]]]; try reflexivity.
  simpl. do 3 f_equal. exact (like_star_any rest).
Qed.

Lemma string_of_uint_digits (d : Decimal.uint) :
  string_forallb is_digit (NilEmpty.string_of_uint d) = true.
Proof. induction d; simpl; auto. Qed.

Lemma digits_to_end_all (s : string) :
  string_forallb is_digit s = true -> digits_to_end s = true.
Proof.
  induction s as [|c s IH]; simpl; [reflexivity|].
  intros H. apply andb_true_iff in H. destruct H as [Hc Hs].
  rewrite Hc. auto.
Qed.

Lemma match_digits_all (s : string) :
  s <> EmptyString -> string_forallb is_digit s = true -> match_digits s = true.
Proof.
  intros Hne H. destruct s as [|c s]; [congruence|].
  unfold match_digits. rewrite (digits_to_end_all _ H).
  simpl in H. apply andb_true_iff in H. destruct H as [-> _]. reflexivity.
Qed.

Lemma string_of_uint_nonempty (d : Decimal.uint) :
  d <> Decimal.Nil -> NilEmpty.string_of_uint d <> EmptyString.
Proof. destruct d; simpl; congruence. Qed.

(** The decimal text of an integer is all digits exactly when the integer
    is not negative: this is how [-match '^\d+$'] reads an [id] that is a
    number. *)
Lemma match_digits_Z_to_string (z : Z) :
  match_digits (Z_to_string z) = (0 <=? z).
Proof.
  destruct z as [|p|p]; try reflexivity.
  unfold Z_to_string. simpl.
  apply match_digits_all.
  - apply string_of_uint_nonempty, Unsigned.to_uint_nonnil.
  - apply string_of_uint_digits.
Qed.

(* ================================================================== *)
(** * Facts about objects *)

Lemma eqb_ci_refl (c : ascii) : eqb_ci c c = true.
Proof. unfold eqb_ci. apply Ascii.eqb_refl. Qed.

Lemma string_eqb_ci_refl (s : string) : string_eqb_ci s s = true.
Proof.
  induction s as [|c s IH]; simpl; [reflexivity|].
  rewrite eqb_ci_refl. exact IH.
Qed.

(** Names that are equal up to letter case are equal up to letter case to
    the same names. *)
Lemma string_eqb_ci_congr (a b c : string) :
  string_eqb_ci a b = true -> string_eqb_ci a c = string_eqb_ci b c.
Proof.
  revert b c. induction a as [|x a IH]; intros [|y b] [|z c]; simpl;
    try reflexivity; try discriminate.
  intros H. apply andb_true_iff in H. destruct H as [Hxy Hab].
  unfold eqb_ci in *. apply Ascii.eqb_eq in Hxy. rewrite Hxy.
  rewrite (IH b c Hab). reflexivity.
Qed.

Lemma get_property_app (o1 o2 : PSObject) (name : string) :
  get_property (o1 ++ o2) name =
  match get_property o1 name with
  | Some v => Some v
  | None => get_property o2 name
  end.
Proof.
  induction o1 as [|[k v] o1 IH]; simpl; [reflexivity|].
  destruct (string_eqb_ci k name); [reflexivity|exact IH].
Qed.

Lemma get_property_removed (o : PSObject) (name : string) :
  get_property (remove_property o name) name = None.
Proof.
  induction o as [|[k v] o IH]; simpl; [reflexivity|].
  destruct (string_eqb_ci k name) eqn:E; simpl; [exact IH|].
  rewrite E. exact IH.
Qed.

Lemma get_property_remove_other (o : PSObject) (name other : string) :
  string_eqb_ci name other = false ->
  get_property (remove_property o name) other = get_property o other.
Proof.
  intros Hne. induction o as [|[k v] o IH]; simpl; [reflexivity|].
  destruct (string_eqb_ci k name) eqn:E; simpl.
  - rewrite (string_eqb_ci_congr k name other E), Hne. exact IH.
  - destruct (string_eqb_ci k other); [reflexivity|exact IH].
Qed.

(** After [Add-Member -Force] the property reads as the value given. *)
Lemma get_Add_Member_Force (name : string) (v : PSValue) (o : PSObject) :
  get_property (Add_Member true name v o) name = Some v.
Proof.
  unfold Add_Member.
  destruct (get_property o name) eqn:E; rewrite get_property_app.
  - rewrite get_property_removed. simpl.
    rewrite string_eqb_ci_refl. reflexivity.
  - rewrite E. simpl. rewrite string_eqb_ci_refl. reflexivity.
Qed.

(** [Add-Member] leaves the properties of every other name as they read. *)
Lemma get_Add_Member_other (force : bool) (name other : string)
    (v : PSValue) (o : PSObject) :
  string_eqb_ci name other = false ->
  get_property (Add_Member force name v o) other = get_property o other.
Proof.
  intros Hne. unfold Add_Member.
  destruct (get_property o name) eqn:E.
  - destruct force; [|reflexivity].
    rewrite get_property_app, (get_property_remove_other _ _ _ Hne).
    simpl. rewrite Hne. destruct (get_property o other); reflexivity.
  - rewrite get_property_app. simpl. rewrite Hne.
    destruct (get_property o other); reflexivity.
Qed.

(* ================================================================== *)
(** * The next id *)

(** X21.  An [id] that is a number is valid exactly when it is not
    negative. *)
Lemma has_numeric_id_int (o : PSObject) (z : Z) :
  get_property o "id" = Some (VInt z) -> has_numeric_id o = (0 <=? z).
Proof.
  intros H. unfold has_numeric_id, id_text. rewrite H. simpl.
  apply match_digits_Z_to_string.
Qed.

(** An [id] that is a text is valid exactly when the text is all digits. *)
Lemma has_numeric_id_text (o : PSObject) (s : string) :
  get_property o "id" = Some (VStr s) -> has_numeric_id o = match_digits s.
Proof.
  intros H. unfold has_numeric_id, id_text. rewrite H. reflexivity.
Qed.

(** A note without [id] has no valid id. *)
Lemma has_numeric_id_missing (o : PSObject) :
  get_property o "id" = None -> has_numeric_id o = false.
Proof.
  intros H. unfold has_numeric_id, id_text. rewrite H. reflexivity.
Qed.

(** Every id that passes the filter is one [Measure-Object] can read. *)
Lemma numeric_id_has_number (o : PSObject) :
  has_numeric_id o = true -> exists n, id_number o = Some n.
Proof.
  unfold has_numeric_id, id_text, id_number.
  destruct (get_property o "id") as [[| [|] | z | s | s]|]; simpl;
    try discriminate.
  - intros _. eexists. reflexivity.
  - intros ->. eexists. reflexivity.
  - intros ->. eexists. reflexivity.
Qed.




(** The empty collection starts at 1. *)
Lemma initial_nextId_empty : initial_nextId [] = 1.
Proof. reflexivity. Qed.

(** Ids that are not numbers do not count: here the ids are 5, the text
    twelve in digits, a word, a negative number and none at all. *)
Example initial_nextId_mixed :
  initial_nextId
    [ [("id", VInt 5)]; [("id", VStr "12")]; [("id", VStr "abc")];
      [("id", VInt (-50))]; [("title", VStr "no id")] ] = 13.
Proof. reflexivity. Qed.

Example initial_nextId_none_valid :
  initial_nextId [ [("id", VStr "abc")]; [("id", VNull)] ] = 1.
Proof. reflexivity. Qed.

(* ================================================================== *)
(** * The Classification Gate *)


(** The signal is the text of the reply after [Trim]: white space before
    the word does not count against it. *)
Lemma is_note_of_reply (t : string) :
  is_note (extract_text (Some
    {| candidates := Some [ {| content := Some
         {| parts := Some [ {| text := Some t |} ] |} |} ] |}))
  = starts_with_ci "Yes" (Trim t).
Proof. unfold is_note, extract_text. simpl. apply like_Yes_star. Qed.

Example is_note_examples :
  is_note (Some "Yes") = true /\ is_note (Some "yes.") = true /\
  is_note (Some "YES ") = true /\ is_note (Some "No") = false /\
  is_note (Some "Ye") = false /\ is_note (Some " Yes") = false /\
  is_note None = false.
Proof. repeat split. Qed.

(* ================================================================== *)
(** * The Schema Normalizer *)

(** ** The fallback title *)

Lemma IsWhiteSpace_Note (n : Z) :
  IsWhiteSpace ("Note " ++ Z_to_string n) = false.
Proof. reflexivity. Qed.

(** The order of the three sources of a fallback title: the file name with
    its separators replaced when that is not blank, else the head of the
    text when that is not blank, else the placeholder with the id. *)
Lemma fallback_title_priority (fileBaseName fileContent : string) (n : Z) :
  let a := replace_separators fileBaseName in
  let b := join_space (firstn 5 (split_ws fileContent)) in
  (IsWhiteSpace a = false -> fallback_title fileBaseName fileContent n = a) /\
  (IsWhiteSpace a = true -> IsWhiteSpace b = false ->
   fallback_title fileBaseName fileContent n = b) /\
  (IsWhiteSpace a = true -> IsWhiteSpace b = true ->
   fallback_title fileBaseName fileContent n
     = ("Note " ++ Z_to_string n)%string).
Proof.
  unfold fallback_title. cbv zeta.
  repeat split; intros; repeat match goal with H : _ = _ |- _ => rewrite H end;
    reflexivity.
Qed.

(** A derived title is never blank. *)
Lemma fallback_title_not_blank (fileBaseName fileContent : string) (n : Z) :
  IsWhiteSpace (fallback_title fileBaseName fileContent n) = false.
Proof.
  unfold fallback_title.
  destruct (IsWhiteSpace (replace_separators fileBaseName)) eqn:Ea;
    [|exact Ea].
  destruct (IsWhiteSpace (join_space (firstn 5 (split_ws fileContent)))) eqn:Eb;
    [apply IsWhiteSpace_Note|exact Eb].
Qed.

Lemma split_aux_cons (b : bool) (s : string) :
  exists piece pieces, split_aux b s = piece :: pieces.
Proof.
  revert b. induction s as [|c s IH]; intros b; simpl; [eauto|].
  destruct (is_space c).
  - destruct b; [apply IH|eauto].
  - destruct (IH false) as [p [ps ->]]. eauto.
Qed.

Lemma TrimEnd_fixed_tail (c : ascii) (s : string) :
  TrimEnd (String c s) = String c s ->
  (s = EmptyString /\ is_space c = false) \/
  (s <> EmptyString /\ TrimEnd s = s).
Proof.
  simpl. destruct (TrimEnd s) as [|d r] eqn:E.
  - destruct (is_space c); [discriminate|].
    intros H. injection H as <-. left. auto.
  - intros H. injection H as <-. right. split; [discriminate|reflexivity].
Qed.

(** In a text that does not end with white space every piece after the
    first is a word, and so is the first when the text does not begin
    with white space. *)
Lemma split_aux_pieces (s : string) :
  s <> EmptyString -> TrimEnd s = s ->
  forallb nonempty (split_aux true s) = true /\
  forallb nonempty (tl (split_aux false s)) = true /\
  (TrimStart s = s -> forallb nonempty (split_aux false s) = true).
Proof.
  induction s as [|c s IH]; [congruence|].
  intros _ Hend.
  destruct (TrimEnd_fixed_tail c s Hend) as [[-> Hc]|[Hne Hs]].
  - simpl. rewrite Hc. simpl. auto.
  - destruct (IH Hne Hs) as [IHt [IHf _]].
    simpl. destruct (is_space c) eqn:Ec.
    + repeat split; auto.
      intros Hstart.
      assert (String.length (TrimStart s) <= String.length s)%nat as Hlen.
      { clear. induction s as [|d s IH]; simpl; [lia|].
        destruct (is_space d); simpl; lia. }
      rewrite Hstart in Hlen. simpl in Hlen. lia.
    + destruct (split_aux_cons false s) as [p [ps Eq]].
      rewrite Eq in *. simpl in *. auto.
Qed.

Lemma filter_all {A : Type} (p : A -> bool) (l : list A) :
  forallb p l = true -> filter p l = l.
Proof.
  induction l as [|x l IH]; simpl; [reflexivity|].
  intros H. apply andb_true_iff in H. destruct H as [-> Hl].
  rewrite (IH Hl). reflexivity.
Qed.

(** X19.  Where the head of the text is what the rule says: on a text
    without white space at either end the pieces are the words. *)
Lemma first_five_words_trimmed (fileContent : string) :
  Trim fileContent = fileContent -> fileContent <> EmptyString ->
  join_space (firstn 5 (split_ws fileContent)) = first_five_words fileContent.
Proof.
  intros Htrim Hne.
  assert (TrimStart fileContent = fileContent) as Hstart.
  { destruct fileContent as [|c s]; [reflexivity|].
    simpl. destruct (is_space c) eqn:Ec; [|reflexivity].
    exfalso. unfold Trim in Htrim. simpl in Htrim. rewrite Ec in Htrim.
    assert (forall t, String.length (TrimEnd t) <= String.length t)%nat as HE.
    { clear. induction t as [|d t IH]; simpl; [lia|].
      destruct (TrimEnd t); [destruct (is_space d)|]; simpl in *; lia. }
    assert (forall t, String.length (TrimStart t) <= String.length t)%nat as HS.
    { clear. induction t as [|d t IH]; simpl; [lia|].
      destruct (is_space d); simpl; lia. }
    specialize (HE (TrimStart s)). specialize (HS s).
    rewrite Htrim in HE. simpl in HE. lia. }
  assert (TrimEnd fileContent = fileContent) as Hend.
  { unfold Trim in Htrim. rewrite Hstart in Htrim. exact Htrim. }
  unfold first_five_words, words, split_ws.
  destruct (split_aux_pieces fileContent Hne Hend) as [_ [_ H]].
  rewrite (filter_all _ _ (H Hstart)). reflexivity.
Qed.

(** C5, the defect.  A note without title, from a file whose name is only
    a separator and whose text begins with a space: the title the script
    derives begins with a space and holds four words, where the rule gives
    the first five words.  The white space at the head of the text makes
    [-split] return an empty first piece, which is counted as one of the
    five. *)
Theorem fallback_title_counts_empty_piece :
  get_property (normalize "_" " a b c d e f" 7 []) "title"
    = Some (VStr " a b c d") /\
  first_five_words " a b c d e f" = "a b c d e".
Proof. split; reflexivity. Qed.

(** White space at the end of a short text shows in the title as well. *)
Example fallback_title_trailing_piece :
  fallback_title "-" (String "a" (String " " (String "b" (String "010" "")))) 7
    = "a b " /\
  first_five_words (String "a" (String " " (String "b" (String "010" ""))))
    = "a b".
Proof. split; reflexivity. Qed.

(** The scenario of the specification: the file name gives the title. *)
Example fallback_title_from_name :
  fallback_title "meeting-notes" "Discuss Q3 roadmap" 1 = "meeting notes".
Proof. reflexivity. Qed.

(** ** Filling the gaps *)

Lemma Contains_In (o : PSObject) (name : string) (v : PSValue) :
  In (name, v) o -> Contains o name = true.
Proof.
  intros H. unfold Contains. apply existsb_exists. exists name. split.
  - apply in_map_iff. exists (name, v). auto.
  - apply String.eqb_refl.
Qed.

Lemma get_property_None_Contains (o : PSObject) (name : string) :
  get_property o name = None -> Contains o name = false.
Proof.
  unfold Contains. induction o as [|[k v] o IH]; simpl; [reflexivity|].
  destruct (string_eqb_ci k name) eqn:E; [discriminate|].
  intros H. rewrite (IH H), orb_false_r.
  destruct (String.eqb name k) eqn:Ek; [|reflexivity].
  apply String.eqb_eq in Ek. subst k.
  rewrite string_eqb_ci_refl in E. discriminate.
Qed.

Lemma In_Add_Member_Force (name : string) (w : PSValue) (o : PSObject)
    (k : string) (v : PSValue) :
  In (k, v) o -> string_eqb_ci k name = false ->
  In (k, v) (Add_Member true name w o).
Proof.
  intros Hin Hne. unfold Add_Member.
  destruct (get_property o name); apply in_or_app; left; [|exact Hin].
  unfold remove_property. apply filter_In. simpl. rewrite Hne. auto.
Qed.

Lemma In_Add_Member_new (name : string) (w : PSValue) (o : PSObject) :
  In (name, w) (Add_Member true name w o).
Proof.
  unfold Add_Member.
  destruct (get_property o name); apply in_or_app; right; left; reflexivity.
Qed.

Lemma holds_Add_Member_Force (name : string) (w : PSValue) (o : PSObject) :
  holds (Add_Member true name w o) name w.
Proof. split; [apply In_Add_Member_new|apply get_Add_Member_Force]. Qed.

Lemma holds_Add_Member_other (name other : string) (w v : PSValue)
    (o : PSObject) :
  string_eqb_ci other name = false -> string_eqb_ci name other = false ->
  holds o other v -> holds (Add_Member true name w o) other v.
Proof.
  intros H1 H2 [Hin Hget]. split.
  - apply In_Add_Member_Force; assumption.
  - rewrite get_Add_Member_other; assumption.
Qed.

Lemma holds_ensure_default_other (name other : string) (d v : PSValue)
    (o : PSObject) :
  string_eqb_ci other name = false -> string_eqb_ci name other = false ->
  holds o other v -> holds (ensure_default name d o) other v.
Proof.
  intros H1 H2 H. unfold ensure_default.
  destruct (negb (Contains o name)); [|exact H].
  apply holds_Add_Member_other; assumption.
Qed.

Lemma holds_ensure_title_other (base content : string) (n : Z)
    (other : string) (v : PSValue) (o : PSObject) :
  string_eqb_ci other "title" = false -> string_eqb_ci "title" other = false ->
  holds o other v -> holds (ensure_title base content n o) other v.
Proof.
  intros H1 H2 H. unfold ensure_title.
  destruct (negb (Contains o "title") || title_is_blank o); [|exact H].
  apply holds_Add_Member_other; assumption.
Qed.

Lemma get_ensure_text_other (content other : string) (o : PSObject) :
  string_eqb_ci "text" other = false ->
  get_property (ensure_text content o) other = get_property o other.
Proof.
  intros H. unfold ensure_text.
  destruct (negb (Contains o "text")); [|reflexivity].
  apply get_Add_Member_other. exact H.
Qed.

Lemma get_ensure_title_other (base content other : string) (n : Z)
    (o : PSObject) :
  string_eqb_ci "title" other = false ->
  get_property (ensure_title base content n o) other = get_property o other.
Proof.
  intros H. unfold ensure_title.
  destruct (negb (Contains o "title") || title_is_blank o); [|reflexivity].
  apply get_Add_Member_other. exact H.
Qed.

Lemma get_ensure_default_other (name other : string) (d : PSValue)
    (o : PSObject) :
  string_eqb_ci name other = false ->
  get_property (ensure_default name d o) other = get_property o other.
Proof.
  intros H. unfold ensure_default.
  destruct (negb (Contains o name)); [|reflexivity].
  apply get_Add_Member_other. exact H.
Qed.

Lemma holds_ensure_text_absent (content : string) (o : PSObject) :
  get_property o "text" = None ->
  holds (ensure_text content o) "text" (VStr content).
Proof.
  intros H. unfold ensure_text.
  rewrite (get_property_None_Contains _ _ H). simpl.
  unfold Add_Member. rewrite H. split.
  - apply in_or_app. right. left. reflexivity.
  - rewrite get_property_app, H. reflexivity.
Qed.

Lemma holds_ensure_default_absent (name : string) (d : PSValue)
    (o : PSObject) :
  get_property o name = None -> holds (ensure_default name d o) name d.
Proof.
  intros H. unfold ensure_default.
  rewrite (get_property_None_Contains _ _ H). simpl.
  apply holds_Add_Member_Force.
Qed.

Lemma In_ensure_text (content : string) (o : PSObject) (kv : string * PSValue) :
  In kv o -> In kv (ensure_text content o).
Proof.
  intros H. unfold ensure_text, Add_Member.
  destruct (negb (Contains o "text")); [|exact H].
  destruct (get_property o "text"); [exact H|].
  apply in_or_app. left. exact H.
Qed.

Lemma In_ensure_default (name : string) (d : PSValue) (o : PSObject)
    (k : string) (v : PSValue) :
  In (k, v) o -> case_variant k name = false ->
  In (k, v) (ensure_default name d o).
Proof.
  intros Hin Hcv. unfold ensure_default.
  destruct (Contains o name) eqn:Ec; simpl; [exact Hin|].
  apply In_Add_Member_Force; [exact Hin|].
  unfold case_variant in Hcv.
  destruct (string_eqb_ci k name); [|reflexivity].
  simpl in Hcv. apply negb_false_iff, String.eqb_eq in Hcv. subst k.
  rewrite (Contains_In _ _ _ Hin) in Ec. discriminate.
Qed.

Lemma In_ensure_title (base content : string) (n : Z) (o : PSObject)
    (k : string) (v : PSValue) :
  In (k, v) o -> case_variant k "title" = false ->
  (k = "title" -> title_is_blank o = false) ->
  In (k, v) (ensure_title base content n o).
Proof.
  intros Hin Hcv Hblank. unfold ensure_title.
  destruct (negb (Contains o "title") || title_is_blank o) eqn:Eb;
    [|exact Hin].
  apply In_Add_Member_Force; [exact Hin|].
  unfold case_variant in Hcv.
  destruct (string_eqb_ci k "title"); [|reflexivity].
  simpl in Hcv. apply negb_false_iff, String.eqb_eq in Hcv. subst k.
  rewrite (Contains_In _ _ _ Hin), (Hblank eq_refl) in Eb. discriminate.
Qed.

Lemma title_is_blank_ensure_text (content : string) (o : PSObject) :
  title_is_blank (ensure_text content o) = title_is_blank o.
Proof.
  unfold title_is_blank. rewrite get_ensure_text_other; reflexivity.
Qed.

(** C6, as the script has it.  The normalizer sets [text] to the source
    text, [status] to Open, [priority] to Medium and [isPrivate] to false
    where the partial note has no property of that name, and every
    property of the partial note passes through unchanged, except a
    [title] that is present but blank: that one is replaced by the derived
    title.  (Properties whose name differs from title, status, priority or
    isPrivate in letter case only are not covered by the statement.)  The
    normalizer is a total function of its arguments. *)
Theorem normalize_fills_gaps (fileBaseName fileContent : string) (n : Z)
    (o : PSObject) :
  let o' := normalize fileBaseName fileContent n o in
  (get_property o "text" = None -> holds o' "text" (VStr fileContent)) /\
  (get_property o "status" = None -> holds o' "status" (VStr "Open")) /\
  (get_property o "priority" = None -> holds o' "priority" (VStr "Medium")) /\
  (get_property o "isPrivate" = None -> holds o' "isPrivate" (VBool false)) /\
  (forall k v, In (k, v) o -> respelled k = false ->
               (k = "title" -> title_is_blank o = false) -> In (k, v) o').
Proof.
  unfold normalize. cbv zeta.
  split; [|split; [|split; [|split]]].
  - intros H.
    apply holds_ensure_default_other; try reflexivity.
    apply holds_ensure_default_other; try reflexivity.
    apply holds_ensure_default_other; try reflexivity.
    apply holds_ensure_title_other; try reflexivity.
    apply holds_ensure_text_absent. exact H.
  - intros H.
    apply holds_ensure_default_other; try reflexivity.
    apply holds_ensure_default_other; try reflexivity.
    apply holds_ensure_default_absent.
    rewrite get_ensure_title_other, get_ensure_text_other by reflexivity.
    exact H.
  - intros H.
    apply holds_ensure_default_other; try reflexivity.
    apply holds_ensure_default_absent.
    rewrite get_ensure_default_other, get_ensure_title_other,
      get_ensure_text_other by reflexivity.
    exact H.
  - intros H.
    apply holds_ensure_default_absent.
    rewrite !get_ensure_default_other, get_ensure_title_other,
      get_ensure_text_other by reflexivity.
    exact H.
  - intros k v Hin Hsp Hblank.
    unfold respelled, forced_names in Hsp. simpl in Hsp.
    rewrite orb_false_r in Hsp.
    apply orb_false_iff in Hsp. destruct Hsp as [Ht Hsp].
    apply orb_false_iff in Hsp. destruct Hsp as [Hs Hsp].
    apply orb_false_iff in Hsp. destruct Hsp as [Hp Hi].
    apply In_ensure_default; [|exact Hi].
    apply In_ensure_default; [|exact Hp].
    apply In_ensure_default; [|exact Hs].
    apply In_ensure_title; [|exact Ht|].
    + apply In_ensure_text. exact Hin.
    + intros Hk. rewrite title_is_blank_ensure_text. auto.
Qed.

(** C6, where the statement of the claim fails: a [title] that is present
    but blank does not pass through; the file name takes its place. *)
Lemma normalize_replaces_blank_title :
  normalize "memo" "body" 1 [("title", VStr " "); ("text", VStr "body")]
  = [ ("text", VStr "body"); ("title", VStr "memo");
      ("status", VStr "Open"); ("priority", VStr "Medium");
      ("isPrivate", VBool false) ].
Proof. reflexivity. Qed.

(** The presence test reads names with their letter case and [Add-Member]
    does not: a status spelled with a capital is replaced by the default. *)
Example normalize_replaces_respelled_status :
  normalize "memo" "body" 1
    [("title", VStr "t"); ("text", VStr "body"); ("Status", VStr "Closed")]
  = [ ("title", VStr "t"); ("text", VStr "body");
      ("status", VStr "Open"); ("priority", VStr "Medium");
      ("isPrivate", VBool false) ].
Proof. reflexivity. Qed.

(** ** The title of a note without one *)

Lemma Contains_ensure_text_title (content : string) (o : PSObject) :
  Contains (ensure_text content o) "title" = Contains o "title".
Proof.
  unfold ensure_text, Add_Member.
  destruct (negb (Contains o "text")); [|reflexivity].
  destruct (get_property o "text"); [reflexivity|].
  unfold Contains. rewrite map_app, existsb_app. simpl.
  rewrite !orb_false_r. reflexivity.
Qed.

(** X20.  Where the title is absent or blank the normalizer writes the
    fallback title. *)
Lemma normalize_derives_title (fileBaseName fileContent : string) (n : Z)
    (o : PSObject) :
  Contains o "title" = false \/ title_is_blank o = true ->
  holds (normalize fileBaseName fileContent n o) "title"
    (VStr (fallback_title fileBaseName fileContent n)).
Proof.
  intros H. unfold normalize.
  repeat (apply holds_ensure_default_other; [reflexivity|reflexivity|]).
  unfold ensure_title.
  rewrite Contains_ensure_text_title, title_is_blank_ensure_text.
  assert (negb (Contains o "title") || title_is_blank o = true) as ->.
  { destruct H as [-> | ->]; [reflexivity|apply orb_true_r]. }
  apply holds_Add_Member_Force.
Qed.

(** ** Complete notes *)

(** C8.  The normalizer leaves a complete note as it is. *)
Theorem normalize_complete (fileBaseName fileContent : string) (n : Z)
    (o : PSObject) :
  complete o -> normalize fileBaseName fileContent n o = o.
Proof.
  intros (_ & Htitle & Hblank & Htext & Hstatus & Hpriority & Hprivate).
  unfold normalize, ensure_text. rewrite Htext. simpl.
  unfold ensure_title. rewrite Htitle, Hblank. simpl.
  unfold ensure_default. rewrite Hstatus. simpl.
  rewrite Hpriority. simpl. rewrite Hprivate. reflexivity.
Qed.

Lemma normalize_complete_witness :
  complete sample_note /\ normalize "list" "Buy milk" 9 sample_note = sample_note.
Proof.
  assert (complete sample_note) as H by (repeat split).
  split; [exact H|].
  apply (normalize_complete "list" "Buy milk" 9 sample_note H).
Defined.

(** ** Normalizing twice *)

Lemma string_eqb_ci_of_eqb (a b : string) :
  String.eqb a b = true -> string_eqb_ci a b = true.
Proof.
  intros H. apply String.eqb_eq in H. subst b. apply string_eqb_ci_refl.
Qed.

Lemma Contains_remove_other (o : PSObject) (name other : string) :
  string_eqb_ci other name = false ->
  Contains (remove_property o name) other = Contains o other.
Proof.
  intros Hne. unfold Contains.
  induction o as [|[k v] o IH]; simpl; [reflexivity|].
  destruct (string_eqb_ci k name) eqn:E; simpl.
  - rewrite IH. destruct (String.eqb other k) eqn:Ek; [|reflexivity].
    apply String.eqb_eq in Ek. subst k. congruence.
  - rewrite IH. reflexivity.
Qed.

(** [Add-Member] under one name does not change which other names the
    object has. *)
Lemma Contains_Add_Member_other (force : bool) (name other : string)
    (v : PSValue) (o : PSObject) :
  string_eqb_ci other name = false ->
  Contains (Add_Member force name v o) other = Contains o other.
Proof.
  intros Hne.
  assert (String.eqb other name = false) as Hneq.
  { destruct (String.eqb other name) eqn:E; [|reflexivity].
    rewrite (string_eqb_ci_of_eqb _ _ E) in Hne. discriminate. }
  unfold Add_Member. destruct (get_property o name).
  - destruct force; [|reflexivity].
    unfold Contains. rewrite map_app, existsb_app.
    fold (Contains (remove_property o name) other).
    rewrite (Contains_remove_other _ _ _ Hne). simpl.
    rewrite Hneq. rewrite !orb_false_r. reflexivity.
  - unfold Contains. rewrite map_app, existsb_app. simpl.
    rewrite Hneq, !orb_false_r. reflexivity.
Qed.

Lemma Contains_ensure_default_other (name other : string) (d : PSValue)
    (o : PSObject) :
  string_eqb_ci other name = false ->
  Contains (ensure_default name d o) other = Contains o other.
Proof.
  intros H. unfold ensure_default.
  destruct (negb (Contains o name)); [|reflexivity].
  apply Contains_Add_Member_other. exact H.
Qed.

Lemma Contains_ensure_default (name : string) (d : PSValue) (o : PSObject) :
  Contains (ensure_default name d o) name = true.
Proof.
  unfold ensure_default. destruct (Contains o name) eqn:E; simpl; [exact E|].
  apply (Contains_In _ _ d), In_Add_Member_new.
Qed.

(** After [ensure_title] the note has a title that is not blank. *)
Lemma ensure_title_titled (base content : string) (n : Z) (o : PSObject) :
  Contains (ensure_title base content n o) "title" = true /\
  title_is_blank (ensure_title base content n o) = false.
Proof.
  unfold ensure_title.
  destruct (Contains o "title") eqn:Ec; simpl.
  - destruct (title_is_blank o) eqn:Eb; [|auto].
    split.
    + apply (Contains_In _ _ (VStr (fallback_title base content n))).
      apply In_Add_Member_new.
    + unfold title_is_blank. rewrite get_Add_Member_Force. simpl.
      apply fallback_title_not_blank.
  - split.
    + apply (Contains_In _ _ (VStr (fallback_title base content n))).
      apply In_Add_Member_new.
    + unfold title_is_blank. rewrite get_Add_Member_Force. simpl.
      apply fallback_title_not_blank.
Qed.

(** After [ensure_text] the note reads a text, its own or the file's. *)
Lemma ensure_text_reads (content : string) (o : PSObject) :
  get_property (ensure_text content o) "text" <> None.
Proof.
  unfold ensure_text. destruct (Contains o "text") eqn:Ec; simpl.
  - intros H. rewrite (get_property_None_Contains _ _ H) in Ec. discriminate.
  - unfold Add_Member. destruct (get_property o "text") eqn:Eg.
    + rewrite Eg. discriminate.
    + rewrite get_property_app, Eg. simpl. discriminate.
Qed.

Lemma ensure_text_fixed (content : string) (o : PSObject) :
  get_property o "text" <> None -> ensure_text content o = o.
Proof.
  intros H. unfold ensure_text, Add_Member.
  destruct (negb (Contains o "text")); [|reflexivity].
  destruct (get_property o "text"); [reflexivity|congruence].
Qed.

Lemma title_is_blank_ensure_default (name : string) (d : PSValue)
    (o : PSObject) :
  string_eqb_ci name "title" = false ->
  title_is_blank (ensure_default name d o) = title_is_blank o.
Proof.
  intros H. unfold title_is_blank.
  rewrite get_ensure_default_other by exact H. reflexivity.
Qed.

(** X17.  The normalizer is idempotent: on any partial note, the second
    application changes nothing. *)
Lemma normalize_idempotent (fileBaseName fileContent : string) (n : Z)
    (o : PSObject) :
  normalize fileBaseName fileContent n
    (normalize fileBaseName fileContent n o)
  = normalize fileBaseName fileContent n o.
Proof.
  set (o' := normalize fileBaseName fileContent n o).
  assert (get_property o' "text" <> None) as Htext.
  { unfold o', normalize.
    rewrite !get_ensure_default_other, get_ensure_title_other by reflexivity.
    apply ensure_text_reads. }
  assert (Contains o' "title" = true /\ title_is_blank o' = false)
    as [Htitle Hblank].
  { unfold o', normalize.
    rewrite !Contains_ensure_default_other,
      !title_is_blank_ensure_default by reflexivity.
    apply ensure_title_titled. }
  assert (Contains o' "status" = true) as Hstatus.
  { unfold o', normalize.
    rewrite !Contains_ensure_default_other by reflexivity.
    apply Contains_ensure_default. }
  assert (Contains o' "priority" = true) as Hpriority.
  { unfold o', normalize.
    rewrite Contains_ensure_default_other by reflexivity.
    apply Contains_ensure_default. }
  assert (Contains o' "isPrivate" = true) as Hprivate.
  { unfold o', normalize. apply Contains_ensure_default. }
  unfold normalize at 1.
  rewrite (ensure_text_fixed _ _ Htext).
  unfold ensure_title. rewrite Htitle, Hblank. cbn [negb orb].
  unfold ensure_default. rewrite Hstatus. cbn [negb].
  rewrite Hpriority. cbn [negb]. rewrite Hprivate. reflexivity.
Qed.

(* ================================================================== *)
(** * The code fences *)

Lemma string_forallb_app (p : ascii -> bool) (s t : string) :
  string_forallb p (s ++ t) = string_forallb p s && string_forallb p t.
Proof.
  induction s as [|c s IH]; simpl; [reflexivity|].
  rewrite IH, andb_assoc. reflexivity.
Qed.

Lemma TrimStart_app_blank (ws s : string) :
  IsWhiteSpace ws = true -> TrimStart (ws ++ s) = TrimStart s.
Proof.
  unfold IsWhiteSpace. induction ws as [|c ws IH]; simpl; [reflexivity|].
  intros H. apply andb_true_iff in H. destruct H as [-> H]. auto.
Qed.

Lemma fence_chars_TrimStart (s : string) :
  string_forallb fence_char (TrimStart s) = true ->
  string_forallb fence_char s = true.
Proof.
  induction s as [|c s IH]; simpl; [reflexivity|].
  unfold fence_char at 2. destruct (is_space c) eqn:E; simpl.
  - exact IH.
  - unfold fence_char at 1. rewrite E. simpl. tauto.
Qed.

Lemma is_trailing_fence_chars (s : string) :
  is_trailing_fence s = true -> string_forallb fence_char s = true.
Proof.
  unfold is_trailing_fence. intros H. apply fence_chars_TrimStart.
  destruct (TrimStart s) as [|a [|b [|c rest]]]; try discriminate.
  apply andb_true_iff in H. destruct H as [H Hrest].
  apply andb_true_iff in H. destruct H as [H Hc].
  apply andb_true_iff in H. destruct H as [Ha Hb].
  simpl. unfold fence_char at 1 2 3. rewrite Ha, Hb, Hc, !orb_true_r. simpl.
  clear - Hrest. unfold IsWhiteSpace in Hrest.
  induction rest as [|d rest IH]; simpl in *; [reflexivity|].
  apply andb_true_iff in Hrest. destruct Hrest as [Hd Hr].
  unfold fence_char at 1. rewrite Hd. simpl. auto.
Qed.

(** No match of the trailing pattern starts before a closing brace. *)
Lemma is_trailing_fence_brace (u t : string) :
  is_trailing_fence (u ++ String "}" t) = false.
Proof.
  destruct (is_trailing_fence (u ++ String "}" t)) eqn:E; [|reflexivity].
  apply is_trailing_fence_chars in E.
  rewrite string_forallb_app in E. simpl in E.
  rewrite andb_false_r in E. discriminate.
Qed.

Lemma strip_trailing_fence_cons (c : ascii) (s : string) :
  strip_trailing_fence (String c s) =
  if is_trailing_fence (String c s) then EmptyString
  else String c (strip_trailing_fence s).
Proof. reflexivity. Qed.

Lemma strip_trailing_fence_match (s : string) :
  is_trailing_fence s = true -> strip_trailing_fence s = EmptyString.
Proof.
  intros H. destruct s as [|c s]; [reflexivity|].
  rewrite strip_trailing_fence_cons, H. reflexivity.
Qed.

Lemma strip_trailing_fence_brace (u t : string) :
  strip_trailing_fence (u ++ String "}" t)
  = (u ++ String "}" (strip_trailing_fence t))%string.
Proof.
  induction u as [|c u IH].
  - pose proof (is_trailing_fence_brace EmptyString t) as H.
    change (is_trailing_fence (String "}" t) = false) in H.
    change (strip_trailing_fence (String "}" t)
            = String "}" (strip_trailing_fence t)).
    rewrite strip_trailing_fence_cons, H. reflexivity.
  - pose proof (is_trailing_fence_brace (String c u) t) as H.
    change (is_trailing_fence (String c (u ++ String "}" t)) = false) in H.
    change (strip_trailing_fence (String c (u ++ String "}" t))
            = String c (u ++ String "}" (strip_trailing_fence t))).
    rewrite strip_trailing_fence_cons, H, IH. reflexivity.
Qed.

Lemma is_trailing_fence_closing (ws2 ws3 : string) :
  IsWhiteSpace ws2 = true -> IsWhiteSpace ws3 = true ->
  is_trailing_fence (ws2 ++ fence ++ ws3) = true.
Proof.
  intros H2 H3. unfold is_trailing_fence.
  rewrite (TrimStart_app_blank _ _ H2). simpl. exact H3.
Qed.

Lemma string_app_assoc (a b c : string) :
  ((a ++ b) ++ c = a ++ (b ++ c))%string.
Proof.
  induction a as [|x a IH]; simpl; [reflexivity|].
  rewrite IH. reflexivity.
Qed.

Lemma json_word_letters (word : string) :
  string_eqb_ci word "json" = true ->
  exists j s o n,
    word = String j (String s (String o (String n EmptyString))) /\
    eqb_ci "j" j = true /\ eqb_ci "s" s = true /\
    eqb_ci "o" o = true /\ eqb_ci "n" n = true.
Proof.
  assert (forall c d, eqb_ci c d = eqb_ci d c) as Hsym
    by (intros c d; unfold eqb_ci; apply Ascii.eqb_sym).
  destruct word as [|j [|s [|o [|n [|x word]]]]]; simpl;
    rewrite ?andb_false_r; try discriminate.
  rewrite andb_true_r. intros H.
  apply andb_true_iff in H. destruct H as [Hj H].
  apply andb_true_iff in H. destruct H as [Hs H].
  apply andb_true_iff in H. destruct H as [Ho Hn].
  exists j, s, o, n. rewrite (Hsym "j"%char), (Hsym "s"%char),
    (Hsym "o"%char), (Hsym "n"%char). auto.
Qed.

(** A JSON object text - an opening brace, a body, a closing brace - set
    between a fence with the word json and a closing fence comes out as
    it went in. *)
Lemma strip_fences_json_wrapper (word ws1 body ws2 : string) :
  string_eqb_ci word "json" = true ->
  IsWhiteSpace ws1 = true -> IsWhiteSpace ws2 = true ->
  strip_fences
    (fence ++ word ++ ws1 ++ String "{" (body ++ "}") ++ ws2 ++ fence)
  = String "{" (body ++ "}").
Proof.
  intros Hword H1 H2.
  destruct (json_word_letters word Hword)
    as (j & s & o & n & -> & Hj & Hs & Ho & Hn).
  set (rest := (ws1 ++ String "{" (body ++ "}") ++ ws2 ++ fence)%string).
  set (wrapped :=
         String "`" (String "`" (String "`"
           (String j (String s (String o (String n rest))))))).
  change (strip_fences wrapped = String "{" (body ++ "}")).
  assert (strip_leading_fence wrapped
          = (String "{" (body ++ "}") ++ ws2 ++ fence)%string) as Hlead.
  { unfold strip_leading_fence.
    change (TrimStart wrapped) with wrapped.
    assert (starts_with_ci "```json" wrapped = true) as ->.
    { unfold wrapped. cbn [starts_with_ci].
      rewrite Hj, Hs, Ho, Hn, !eqb_ci_refl. reflexivity. }
    change (skip 7 wrapped) with rest.
    unfold rest. rewrite (TrimStart_app_blank _ _ H1). reflexivity. }
  unfold strip_fences. rewrite Hlead.
  change (String "{" (body ++ "}") ++ ws2 ++ fence)%string
    with (String "{" ((body ++ "}") ++ ws2 ++ fence)).
  rewrite string_app_assoc.
  change (String "{" (body ++ "}" ++ ws2 ++ fence))
    with (String "{" body ++ String "}" (ws2 ++ fence ++ ""))%string.
  rewrite strip_trailing_fence_brace.
  rewrite (strip_trailing_fence_match _
             (is_trailing_fence_closing ws2 EmptyString H2 eq_refl)).
  reflexivity.
Qed.

(** X18.  A JSON object text without fences is not touched. *)
Lemma strip_fences_bare (body : string) :
  strip_fences (String "{" (body ++ "}")) = String "{" (body ++ "}").
Proof.
  unfold strip_fences.
  change (strip_leading_fence (String "{" (body ++ "}")))
    with (String "{" body ++ String "}" EmptyString)%string.
  rewrite strip_trailing_fence_brace. reflexivity.
Qed.

(* ================================================================== *)
(** * The ingestion loop *)

Lemma unchanged_refl (st : State) : unchanged st st.
Proof. repeat split. Qed.

Lemma unchanged_count_requests (st : State) (n : nat) :
  unchanged st (count_requests n st).
Proof. repeat split. Qed.

Lemma unchanged_count_file (st : State) : unchanged st (count_file st).
Proof. repeat split. Qed.

Lemma unchanged_trans (a b c : State) :
  unchanged a b -> unchanged b c -> unchanged a c.
Proof.
  intros (H1 & H2 & H3 & H4) (K1 & K2 & K3 & K4).
  repeat split; congruence.
Qed.

Section PipelineFacts.

Variable ConvertFrom_Json : string -> option PSObject.

Lemma generate_note_skips (f : TxtFile) (fileContent : string)
    (signal : option string) (st : State) :
  is_note signal = false \/ no_usable_payload ConvertFrom_Json f ->
  unchanged st (generate_note ConvertFrom_Json f fileContent signal st).
Proof.
  intros H. unfold generate_note.
  destruct (is_note signal); [|apply unchanged_refl].
  destruct H as [H|H]; [discriminate|].
  unfold no_usable_payload, generator_payload in H.
  destruct (Invoke_GeminiApi (generation f)) as [outcome sent].
  simpl in H.
  apply (unchanged_trans _ (count_requests sent st));
    [apply unchanged_count_requests|].
  destruct outcome as [response2|]; [|apply unchanged_refl].
  assert (unchanged (count_requests sent st)
            (ingest_generated ConvertFrom_Json f fileContent
               (extract_text response2) (count_requests sent st))) as Hing.
  { destruct H as [H|[p [Hp H]]].
    - rewrite H. apply unchanged_refl.
    - rewrite Hp. unfold ingest_generated.
      destruct (IsWhiteSpace p); [apply unchanged_refl|].
      destruct H as [H|H]; [discriminate|].
      rewrite H. apply unchanged_refl. }
  destruct response2 as [r|]; [exact Hing|].
  destruct (extract_text None); [exact Hing|apply unchanged_refl].
Qed.

(** C3.  A file the gate rejects, and a file the gate accepts whose
    generator payload is absent or does not parse, adds no note and leaves
    [nextId] and [currentOrder] (and the count of added notes) as they
    were. *)
Theorem process_file_skips (st : State) (f : TxtFile) :
  is_note (classification_signal f) = false \/ no_usable_payload ConvertFrom_Json f ->
  unchanged st (process_file ConvertFrom_Json st f).
Proof.
  intros H. unfold process_file.
  destruct (Get_Content f) as [fileContent|]; [|apply unchanged_count_file].
  destruct (IsWhiteSpace fileContent); [apply unchanged_count_file|].
  unfold classification_signal in H.
  destruct (Invoke_GeminiApi (classification f)) as [outcome sent].
  simpl in H.
  assert (unchanged st (count_requests sent (count_file st))) as Hsent
    by (repeat split).
  destruct outcome as [response1|]; [|exact Hsent].
  assert (unchanged st
            (generate_note ConvertFrom_Json f fileContent
               (extract_text response1)
               (count_requests sent (count_file st)))) as Hgen.
  { apply (unchanged_trans _ (count_requests sent (count_file st))).
    - exact Hsent.
    - apply generate_note_skips. exact H. }
  destruct response1 as [r|]; [exact Hgen|].
  destruct (extract_text None); [exact Hgen|exact Hsent].
Qed.

(** C9.  A file whose text is empty after trimming is passed over before
    any request is sent: no request, no note, [nextId] and [currentOrder]
    as they were. *)
Theorem process_file_blank (st : State) (f : TxtFile) (fileContent : string) :
  Get_Content f = Some fileContent -> Trim fileContent = EmptyString ->
  apiRequests (process_file ConvertFrom_Json st f) = apiRequests st /\
  unchanged st (process_file ConvertFrom_Json st f).
Proof.
  intros Hc Ht. apply Trim_empty_iff in Ht.
  unfold process_file. rewrite Hc, Ht.
  split; [reflexivity|apply unchanged_count_file].
Qed.

(** C7, as the script has it.  A payload that is a JSON object text, set
    between a fence followed by the word json (in any letter case) and a
    closing fence, white space allowed inside the fences: the fences are
    taken off before parsing and the note is appended. *)
Theorem ingest_generated_json_fenced (f : TxtFile) (fileContent : string)
    (st : State) (word ws1 body ws2 : string) (jsonObject : PSObject) :
  string_eqb_ci word "json" = true ->
  IsWhiteSpace ws1 = true -> IsWhiteSpace ws2 = true ->
  ConvertFrom_Json (String "{" (body ++ "}")) = Some jsonObject ->
  ingest_generated ConvertFrom_Json f fileContent
    (Some (fence ++ word ++ ws1 ++ String "{" (body ++ "}") ++ ws2 ++ fence)%string)
    st
  = append_note
      (build_note (BaseName f) fileContent (fileDate f)
         (nextId st) (currentOrder st) jsonObject) st.
Proof.
  intros Hword H1 H2 Hparse. unfold ingest_generated.
  change (IsWhiteSpace (fence ++ word ++ ws1 ++ String "{" (body ++ "}")
                          ++ ws2 ++ fence))
    with false.
  simpl negb. cbv iota.
  rewrite (strip_fences_json_wrapper word ws1 body ws2 Hword H1 H2), Hparse.
  reflexivity.
Qed.

(** X22.  The other way round: a file that can be read and is not blank,
    that the gate accepts and for which the generator sends text that
    parses, adds the note built from the parsed object. *)
Lemma process_file_appends (st : State) (f : TxtFile)
    (fileContent p : string) (jsonObject : PSObject) :
  Get_Content f = Some fileContent -> IsWhiteSpace fileContent = false ->
  is_note (classification_signal f) = true ->
  generator_payload f = Some p -> IsWhiteSpace p = false ->
  ConvertFrom_Json (strip_fences p) = Some jsonObject ->
  allNotes (process_file ConvertFrom_Json st f)
  = allNotes st ++ [build_note (BaseName f) fileContent (fileDate f)
                      (nextId st) (currentOrder st) jsonObject] /\
  nextId (process_file ConvertFrom_Json st f) = nextId st + 1 /\
  currentOrder (process_file ConvertFrom_Json st f) = currentOrder st + 1.
Proof.
  intros Hc Hnb Hgate Hp Hpnb Hparse.
  unfold process_file. rewrite Hc, Hnb.
  unfold classification_signal in Hgate.
  destruct (Invoke_GeminiApi (classification f)) as [outcome sent].
  simpl in Hgate.
  destruct outcome as [response1|]; [|discriminate].
  assert (extract_text response1 <> None) as Hsome
    by (intros E; rewrite E in Hgate; discriminate).
  assert (forall st0,
            generate_note ConvertFrom_Json f fileContent
              (extract_text response1) st0
            = append_note
                (build_note (BaseName f) fileContent (fileDate f)
                   (nextId st0) (currentOrder st0) jsonObject)
                (count_requests
                   (snd (Invoke_GeminiApi (generation f))) st0)) as Hgen.
  { intros st0. unfold generate_note. rewrite Hgate.
    unfold generator_payload in Hp.
    destruct (Invoke_GeminiApi (generation f)) as [outcome2 sent2].
    simpl in Hp. simpl snd.
    destruct outcome2 as [response2|]; [|discriminate].
    rewrite Hp. unfold ingest_generated. rewrite Hpnb, Hparse. simpl negb.
    cbv iota. destruct response2; reflexivity. }
  destruct response1 as [r|].
  - rewrite Hgen. repeat split.
  - exfalso. apply Hsome. reflexivity.
Qed.

End PipelineFacts.

(* ================================================================== *)
(** * The stamps *)

Lemma holds_ensure_text_other (content other : string) (v : PSValue)
    (o : PSObject) :
  string_eqb_ci "text" other = false ->
  holds o other v -> holds (ensure_text content o) other v.
Proof.
  intros Hne [Hin Hget]. split.
  - apply In_ensure_text. exact Hin.
  - rewrite get_ensure_text_other; assumption.
Qed.

(** A property the normalizer has no business with goes through it. *)
Ltac through_normalize :=
  unfold normalize;
  repeat (apply holds_ensure_default_other; [reflexivity|reflexivity|]);
  apply holds_ensure_title_other; [reflexivity|reflexivity|];
  apply holds_ensure_text_other; [reflexivity|].

(** The note that is appended carries the id and the order of the
    counters, whatever the generator wrote under those names. *)
Lemma build_note_id (base content date : string) (n k : Z) (o : PSObject) :
  holds (build_note base content date n k o) "id" (VInt n).
Proof.
  unfold build_note, stamp_order, stamp_identity.
  apply holds_Add_Member_other; try reflexivity.
  through_normalize.
  apply holds_Add_Member_other; try reflexivity.
  apply holds_Add_Member_Force.
Qed.

Lemma build_note_order (base content date : string) (n k : Z) (o : PSObject) :
  holds (build_note base content date n k o) "order" (VInt k).
Proof. unfold build_note, stamp_order. apply holds_Add_Member_Force. Qed.

Lemma build_note_createdAt (base content date : string) (n k : Z)
    (o : PSObject) :
  holds (build_note base content date n k o) "createdAt" (VStr date).
Proof.
  unfold build_note, stamp_order, stamp_identity.
  apply holds_Add_Member_other; try reflexivity.
  through_normalize.
  apply holds_Add_Member_Force.
Qed.

Section RunFacts.

Variable ConvertFrom_Json : string -> option PSObject.

Lemma ingest_generated_step (f : TxtFile) (fileContent : string)
    (generated : option string) (st : State) :
  let st' := ingest_generated ConvertFrom_Json f fileContent generated st in
  unchanged st st' \/ appended st st'.
Proof.
  unfold ingest_generated. cbv zeta.
  destruct generated as [p|]; [|left; apply unchanged_refl].
  destruct (IsWhiteSpace p); simpl; [left; apply unchanged_refl|].
  destruct (ConvertFrom_Json (strip_fences p)) as [o|];
    [|left; apply unchanged_refl].
  right. eexists. simpl. repeat split; try reflexivity.
  - apply build_note_id.
  - apply build_note_id.
  - apply build_note_order.
  - apply build_note_order.
Qed.

Lemma generate_note_step (f : TxtFile) (fileContent : string)
    (signal : option string) (st : State) :
  let st' := generate_note ConvertFrom_Json f fileContent signal st in
  unchanged st st' \/ appended st st'.
Proof.
  unfold generate_note. cbv zeta.
  destruct (is_note signal); [|left; apply unchanged_refl].
  destruct (Invoke_GeminiApi (generation f)) as [outcome sent].
  destruct outcome as [response2|];
    [|left; apply unchanged_count_requests].
  assert (unchanged st
            (ingest_generated ConvertFrom_Json f fileContent
               (extract_text response2) (count_requests sent st)) \/
          appended st
            (ingest_generated ConvertFrom_Json f fileContent
               (extract_text response2) (count_requests sent st))) as H.
  { destruct (ingest_generated_step f fileContent (extract_text response2)
                (count_requests sent st)) as [H|H]; [left|right]; exact H. }
  destruct response2 as [r|]; [exact H|].
  destruct (extract_text None); [exact H|left; apply unchanged_count_requests].
Qed.

(** Each file either leaves the collection and the counters alone or
    appends one note stamped with them. *)
Lemma process_file_step (st : State) (f : TxtFile) :
  unchanged st (process_file ConvertFrom_Json st f) \/
  appended st (process_file ConvertFrom_Json st f).
Proof.
  unfold process_file.
  destruct (Get_Content f) as [fileContent|];
    [|left; apply unchanged_count_file].
  destruct (IsWhiteSpace fileContent); [left; apply unchanged_count_file|].
  destruct (Invoke_GeminiApi (classification f)) as [outcome sent].
  assert (unchanged st (count_requests sent (count_file st))) as Hsent
    by (repeat split).
  destruct outcome as [response1|]; [|left; exact Hsent].
  assert (unchanged st
            (generate_note ConvertFrom_Json f fileContent
               (extract_text response1)
               (count_requests sent (count_file st))) \/
          appended st
            (generate_note ConvertFrom_Json f fileContent
               (extract_text response1)
               (count_requests sent (count_file st)))) as H.
  { destruct (generate_note_step f fileContent (extract_text response1)
                (count_requests sent (count_file st))) as [H|H];
      [left|right]; exact H. }
  destruct response1 as [r|]; [exact H|].
  destruct (extract_text None); [exact H|left; exact Hsent].
Qed.

(** The notes of a run are stamped with consecutive ids and orders. *)
Lemma process_files_stamps (files : list TxtFile) (st : State) :
  exists added,
    let st' := process_files ConvertFrom_Json st files in
    allNotes st' = allNotes st ++ added /\
    addedCount st' = addedCount st + Z.of_nat (List.length added) /\
    nextId st' = nextId st + Z.of_nat (List.length added) /\
    currentOrder st' = currentOrder st + Z.of_nat (List.length added) /\
    forall k note, nth_error added k = Some note ->
      holds note "id" (VInt (nextId st + Z.of_nat k)) /\
      holds note "order" (VInt (currentOrder st + Z.of_nat k)).
Proof.
  revert st. induction files as [|f files IH]; intros st.
  - exists []. simpl. rewrite app_nil_r, !Z.add_0_r.
    repeat split; try reflexivity.
    + destruct k; discriminate.
    + destruct k; discriminate.
    + destruct k; discriminate.
    + destruct k; discriminate.
  - destruct (IH (process_file ConvertFrom_Json st f)) as [added H].
    cbv zeta in H. destruct H as (Hn & Ha & Hi & Ho & Hk).
    change (process_files ConvertFrom_Json st (f :: files))
      with (process_files ConvertFrom_Json
              (process_file ConvertFrom_Json st f) files).
    destruct (process_file_step st f) as [(U1 & U2 & U3 & U4)|Happ].
    + exists added. cbv zeta. rewrite Hn, Ha, Hi, Ho, U1, U2, U3, U4.
      repeat split; try reflexivity.
      * rewrite <- U2. apply (Hk k note H).
      * rewrite <- U2. apply (Hk k note H).
      * rewrite <- U3. apply (Hk k note H).
      * rewrite <- U3. apply (Hk k note H).
    + destruct Happ as (note & A1 & A2 & A3 & A4 & Hid & Hord).
      exists (note :: added). cbv zeta.
      rewrite Hn, Ha, Hi, Ho, A1, A2, A3, A4, <- app_assoc.
      simpl List.length. rewrite Nat2Z.inj_succ.
      split; [reflexivity|]. split; [lia|]. split; [lia|]. split; [lia|].
      intros k n' Hnth. destruct k as [|k].
      * simpl in Hnth. injection Hnth as <-.
        simpl. rewrite !Z.add_0_r. split; assumption.
      * simpl in Hnth. destruct (Hk k n' Hnth) as [H1 H2].
        rewrite A2 in H1. rewrite A3 in H2.
        rewrite Nat2Z.inj_succ.
        replace (nextId st + Z.succ (Z.of_nat k))
          with (nextId st + 1 + Z.of_nat k) by lia.
        replace (currentOrder st + Z.succ (Z.of_nat k))
          with (currentOrder st + 1 + Z.of_nat k) by lia.
        split; assumption.
Qed.


End RunFacts.

(* ================================================================== *)
(** * The Collection Store *)

Lemma id_leb_int (a b : PSObject) (x y : Z) :
  get_property a "id" = Some (VInt x) ->
  get_property b "id" = Some (VInt y) ->
  id_leb a b = (x <=? y).
Proof. intros Ha Hb. unfold id_leb. rewrite Ha, Hb. reflexivity. Qed.

Lemma insert_sorted_perm (x : PSObject) (l : list PSObject) :
  Permutation (x :: l) (insert_sorted x l).
Proof.
  induction l as [|y l IH]; simpl; [apply Permutation_refl|].
  destruct (id_leb x y); [apply Permutation_refl|].
  apply perm_trans with (y :: x :: l); [apply perm_swap|].
  apply perm_skip. exact IH.
Qed.

(** [Sort-Object] keeps every note, and adds none. *)
Lemma Sort_Object_perm (l : list PSObject) : Permutation l (Sort_Object l).
Proof.
  induction l as [|x l IH]; simpl; [apply perm_nil|].
  apply perm_trans with (x :: Sort_Object l).
  - apply perm_skip. exact IH.
  - apply insert_sorted_perm.
Qed.

Lemma id_le_trans (a b c : PSObject) : id_le a b -> id_le b c -> id_le a c.
Proof.
  intros (x & y & Ha & Hb & Hxy) (y' & z & Hb' & Hc & Hyz).
  rewrite Hb in Hb'. injection Hb' as <-.
  exists x, z. repeat split; try assumption. lia.
Qed.

Lemma insert_sorted_ascending (x : PSObject) (l : list PSObject) :
  has_int_id x -> Forall has_int_id l ->
  StronglySorted id_le l -> StronglySorted id_le (insert_sorted x l).
Proof.
  intros [zx Hx] Hall Hs.
  induction l as [|y l IH]; simpl.
  - constructor; constructor.
  - inversion Hall as [|? ? [zy Hy] Hall']; subst.
    inversion Hs as [|? ? Hs' Hy_le]; subst.
    rewrite (id_leb_int x y zx zy Hx Hy).
    destruct (zx <=? zy) eqn:E.
    + apply Z.leb_le in E.
      assert (id_le x y) as Hxy by (exists zx, zy; auto).
      constructor; [exact Hs|].
      constructor; [exact Hxy|].
      eapply Forall_impl; [|exact Hy_le].
      intros c Hc. exact (id_le_trans x y c Hxy Hc).
    + apply Z.leb_gt in E.
      constructor; [exact (IH Hall' Hs')|].
      apply Forall_forall. intros c Hc.
      apply (Permutation_in c (Permutation_sym (insert_sorted_perm x l))) in Hc.
      destruct Hc as [<-|Hc].
      * exists zy, zx. repeat split; try assumption. lia.
      * rewrite Forall_forall in Hy_le. exact (Hy_le c Hc).
Qed.

(** When the ids are integers [Sort-Object] puts the notes in ascending
    order of id. *)
Lemma Sort_Object_ascending (l : list PSObject) :
  Forall has_int_id l -> StronglySorted id_le (Sort_Object l).
Proof.
  induction l as [|x l IH]; simpl; intros H; [constructor|].
  inversion H as [|? ? Hx Hl]; subst.
  apply insert_sorted_ascending; [exact Hx| |exact (IH Hl)].
  apply Forall_forall. intros c Hc.
  apply (Permutation_in c (Permutation_sym (Sort_Object_perm l))) in Hc.
  rewrite Forall_forall in Hl. exact (Hl c Hc).
Qed.

Lemma Sort_Object_length (l : list PSObject) :
  List.length (Sort_Object l) = List.length l.
Proof. symmetry. apply Permutation_length, Sort_Object_perm. Qed.

(** What [save] leaves in the file it can write: nothing new for an empty
    collection when a file is there, the empty array when none is, one
    note as a JSON object, two or more as a JSON array of the sorted
    notes. *)
Lemma save_cases (notes : list PSObject) (old : option FileContent) :
  save true notes old =
  match notes with
  | [] => match old with
          | None => Some (JsonArray [])
          | Some content => Some content
          end
  | [note] => Some (JsonObject note)
  | _ :: _ :: _ => Some (JsonArray (Sort_Object notes))
  end.
Proof.
  destruct notes as [|a [|b rest]].
  - destruct old; reflexivity.
  - reflexivity.
  - unfold save.
    change (Nat.ltb 0 (List.length (a :: b :: rest))) with true. cbv iota.
    pose proof (Sort_Object_length (a :: b :: rest)) as Hlen.
    destruct (Sort_Object (a :: b :: rest)) as [|c [|d sorted]];
      simpl in Hlen; try discriminate.
    reflexivity.
Qed.

(** The loader reads a file that holds one JSON object as a collection of
    one note, so what [save] writes for one note loads again. *)
Lemma load_single_object (note : PSObject) :
  load (Some (JsonObject note)) = [note].
Proof. reflexivity. Qed.

Section StoreFacts.

Variable ConvertFrom_Json : string -> option PSObject.

(** C2, as the script has it.  A run that comes to its last line (the
    folder is there and holds a text file) and can write the output file
    leaves in it: for two or more notes one JSON array with exactly the
    notes of the collection, in ascending order of id when the ids are
    integers; for exactly one note that note as a JSON object, not an
    array; for no note the empty JSON array when there was no file, and
    the file as it was when there was one. *)
Theorem script_persists (env : Environment) :
  folderExists env = true -> txtFiles env <> [] -> writable env = true ->
  persisted (OutputJsonFile env) (script ConvertFrom_Json env).
Proof.
  intros Hfolder Hfiles Hw. unfold persisted, script.
  rewrite Hfolder. simpl negb.
  cbv iota. destruct (txtFiles env) as [|f files]; [congruence|].
  set (st := process_files ConvertFrom_Json
               (initial_state (load (OutputJsonFile env))) (f :: files)).
  cbv zeta. simpl ending. simpl finalFile. simpl finalState.
  rewrite Hw, save_cases.
  split; [reflexivity|].
  destruct (allNotes st) as [|a [|b rest]]; try reflexivity.
  exists (Sort_Object (a :: b :: rest)).
  split; [reflexivity|]. split; [apply Sort_Object_perm|].
  apply Sort_Object_ascending.
Qed.

(** A run that finds no text file ends before the save: the file stays as
    it was, and none is made when there was none. *)
Lemma script_without_files (env : Environment) :
  folderExists env = true -> txtFiles env = [] ->
  ending (script ConvertFrom_Json env) = Exit0 /\
  finalFile (script ConvertFrom_Json env) = OutputJsonFile env.
Proof.
  intros Hfolder Hfiles. unfold script. rewrite Hfolder, Hfiles.
  split; reflexivity.
Qed.

End StoreFacts.

(* ================================================================== *)
(** * Sample runs *)

(** The first scenario of the specification, up to the shape of the
    file. *)
Example script_first_note :
  allNotes (finalState (script parse_empty_object one_file_env)) = [first_note].
Proof. vm_compute. reflexivity. Qed.

(** C2, where the statement of the claim fails: a run that ends with
    exactly one note writes that note as a JSON object, not as an array
    of one note. *)
Lemma script_single_note_is_object :
  ending (script parse_empty_object one_file_env) = Completed /\
  finalFile (script parse_empty_object one_file_env)
    = Some (JsonObject first_note).
Proof. split; vm_compute; reflexivity. Qed.

Lemma script_persists_witness :
  persisted (OutputJsonFile busy_env) (script parse_empty_object busy_env).
Proof.
  apply (script_persists parse_empty_object busy_env).
  - reflexivity.
  - discriminate.
  - reflexivity.
Defined.

(** The run above in full: the two notes of the file and the two new
    ones, in ascending order of id. *)
Example script_busy_run :
  finalFile (script parse_empty_object busy_env)
  = Some (JsonArray
      [ [("id", VInt 2)]; [("id", VInt 5)];
        [ ("id", VInt 6); ("createdAt", VStr sample_date);
          ("text", VStr "Discuss Q3 roadmap"); ("title", VStr "meeting notes");
          ("status", VStr "Open"); ("priority", VStr "Medium");
          ("isPrivate", VBool false); ("order", VInt 0) ];
        [ ("id", VInt 7); ("createdAt", VStr sample_date);
          ("text", VStr "Discuss Q3 roadmap"); ("title", VStr "meeting notes");
          ("status", VStr "Open"); ("priority", VStr "Medium");
          ("isPrivate", VBool false); ("order", VInt 1) ] ]).
Proof. vm_compute. reflexivity. Qed.

(** An empty collection and no file: the empty array is written. *)
Example script_writes_empty_array :
  finalFile (script parse_empty_object
               {| folderExists := true; OutputJsonFile := None; writable := true;
                  txtFiles := [rejected_file] |})
  = Some (JsonArray []).
Proof. vm_compute. reflexivity. Qed.

Lemma process_file_skips_witness :
  unchanged (initial_state [first_note])
    (process_file parse_empty_object (initial_state [first_note]) rejected_file) /\
  unchanged (initial_state [first_note])
    (process_file parse_empty_object (initial_state [first_note]) silent_file) /\
  unchanged (initial_state [first_note])
    (process_file parse_empty_object (initial_state [first_note]) garbled_file).
Proof.
  split; [|split].
  - apply (process_file_skips parse_empty_object _ rejected_file).
    left. vm_compute. reflexivity.
  - apply (process_file_skips parse_empty_object _ silent_file).
    right. left. vm_compute. reflexivity.
  - apply (process_file_skips parse_empty_object _ garbled_file).
    right. right. exists "Sorry, I cannot".
    split; [vm_compute; reflexivity|].
    right. vm_compute. reflexivity.
Defined.

Lemma process_file_blank_witness :
  apiRequests (process_file parse_empty_object (initial_state [first_note])
                 blank_file)
  = apiRequests (initial_state [first_note]) /\
  unchanged (initial_state [first_note])
    (process_file parse_empty_object (initial_state [first_note]) blank_file).
Proof.
  apply (process_file_blank parse_empty_object (initial_state [first_note])
           blank_file (String " " (String "009" line_feed))).
  - reflexivity.
  - vm_compute. reflexivity.
Defined.

Lemma ingest_generated_json_fenced_witness :
  ingest_generated parse_empty_object fenced_file "Discuss Q3 roadmap"
    (Some (fence ++ "json" ++ line_feed ++ "{}" ++ line_feed ++ fence)%string)
    (initial_state [])
  = append_note first_note (initial_state []).
Proof.
  etransitivity.
  - apply (ingest_generated_json_fenced parse_empty_object fenced_file
             "Discuss Q3 roadmap" (initial_state [])
             "json" line_feed EmptyString line_feed []);
      vm_compute; reflexivity.
  - vm_compute. reflexivity.
Defined.

(** C7, where the statement of the claim fails: between fences that do
    not carry the word json only the closing fence is taken off, so what
    goes to the parser still begins with a fence; the note that the same
    payload gives without fences is not made. *)
Lemma bare_fence_not_stripped :
  strip_fences (fence ++ line_feed ++ "{}" ++ line_feed ++ fence)
  = (fence ++ line_feed ++ "{}")%string /\
  allNotes (process_file parse_empty_object (initial_state []) bare_fenced_file)
  = [] /\
  allNotes (process_file parse_empty_object (initial_state []) accepted_file)
  = [first_note].
Proof. split; [|split]; vm_compute; reflexivity. Qed.

(* ================================================================== *)
(** * The API helper *)

Lemma api_loop_S (server : nat -> Attempt) (n attempt : nat) :
  api_loop server (S n) attempt =
  match server (S attempt) with
  | Replied r => (Returned r, S attempt)
  | WebException statusCode =>
      if retryable statusCode then
        match n with
        | O => (Thrown, S attempt)
        | S _ => api_loop server n (S attempt)
        end
      else (Thrown, S attempt)
  | OtherException =>
      match n with
      | O => (Thrown, S attempt)
      | S _ => api_loop server n (S attempt)
      end
  end.
Proof. reflexivity. Qed.

Lemma api_loop_sent (server : nat -> Attempt) (remaining attempt : nat) :
  (attempt + 1 <= snd (api_loop server (S remaining) attempt)
   <= attempt + S remaining)%nat.
Proof.
  revert attempt. induction remaining as [|n IH]; intros attempt;
    rewrite api_loop_S.
  - destruct (server (S attempt)) as [r|c|];
      try destruct (retryable c); cbn [snd]; lia.
  - specialize (IH (S attempt)).
    destruct (server (S attempt)) as [r|c|];
      try destruct (retryable c); cbn [snd]; lia.
Qed.

(** X1.  A call of [Invoke-GeminiApi] sends at least one request and at
    most [$maxRetries] of them, whatever the server answers. *)
Theorem Invoke_GeminiApi_sends (server : nat -> Attempt) :
  (1 <= snd (Invoke_GeminiApi server) <= maxRetries)%nat.
Proof.
  unfold Invoke_GeminiApi, maxRetries.
  pose proof (api_loop_sent server 1 0). lia.
Qed.

Lemma api_loop_outcome (server : nat -> Attempt) (remaining attempt : nat) :
  let (outcome, sent) := api_loop server (S remaining) attempt in
  (forall j, (attempt < j < sent)%nat -> retried (server j) = true) /\
  match outcome with
  | Returned r => server sent = Replied r
  | Thrown =>
      (exists c, server sent = WebException c /\ retryable c = false) \/
      (sent = (attempt + S remaining)%nat /\ retried (server sent) = true)
  end.
Proof.
  revert attempt. induction remaining as [|n IH]; intros attempt;
    rewrite api_loop_S.
  - destruct (server (S attempt)) as [r|c|] eqn:E.
    + split; [intros j Hj; lia|exact E].
    + destruct (retryable c) eqn:Ec.
      * split; [intros j Hj; lia|]. right.
        split; [lia|]. rewrite E. exact Ec.
      * split; [intros j Hj; lia|]. left. exists c. auto.
    + split; [intros j Hj; lia|]. right.
      split; [lia|]. rewrite E. reflexivity.
  - specialize (IH (S attempt)).
    assert (retried (server (S attempt)) = true ->
            let (outcome, sent) := api_loop server (S n) (S attempt) in
            (forall j, (attempt < j < sent)%nat -> retried (server j) = true) /\
            match outcome with
            | Returned r => server sent = Replied r
            | Thrown =>
                (exists c, server sent = WebException c /\ retryable c = false) \/
                (sent = (attempt + S (S n))%nat /\ retried (server sent) = true)
            end) as Hstep.
    { intros Hfirst.
      destruct (api_loop server (S n) (S attempt)) as [outcome sent].
      destruct IH as [Hbefore Hlast]. split.
      - intros j Hj. destruct (Nat.eq_dec j (S attempt)) as [->|Hne];
          [exact Hfirst|apply Hbefore; lia].
      - destruct outcome; [exact Hlast|].
        destruct Hlast as [Hl|[Hl1 Hl2]]; [left; exact Hl|right].
        split; [lia|exact Hl2]. }
    destruct (server (S attempt)) as [r|c|] eqn:E.
    + split; [intros j Hj; lia|exact E].
    + destruct (retryable c) eqn:Ec.
      * apply Hstep. exact Ec.
      * split; [intros j Hj; lia|]. left. exists c. auto.
    + apply Hstep. reflexivity.
Qed.

(** X2.  When [Invoke-GeminiApi] returns, what it returns is the reply to
    the last request it sent, and every request before that one failed in
    a way that is retried.  In particular the [return $null] after the
    loop is never reached: a [$null] comes back only as a reply. *)
Theorem Invoke_GeminiApi_returns (server : nat -> Attempt)
    (r : option Response) (sent : nat) :
  Invoke_GeminiApi server = (Returned r, sent) ->
  server sent = Replied r /\
  forall j, (1 <= j < sent)%nat -> retried (server j) = true.
Proof.
  intros H. pose proof (api_loop_outcome server 1 0) as Hspec.
  unfold Invoke_GeminiApi, maxRetries in H. rewrite H in Hspec.
  destruct Hspec as [Hbefore Hlast].
  split; [exact Hlast|]. intros j Hj. apply Hbefore. lia.
Qed.


(* ================================================================== *)
(** * What a file costs and counts *)

Lemma Invoke_GeminiApi_sent_le (server : nat -> Attempt) :
  (snd (Invoke_GeminiApi server) <= maxRetries)%nat.
Proof.
  unfold Invoke_GeminiApi, maxRetries.
  pose proof (api_loop_sent server 1 0). lia.
Qed.

Section CostFacts.

Variable ConvertFrom_Json : string -> option PSObject.

Lemma ingest_generated_counts (f : TxtFile) (fileContent : string)
    (generated : option string) (st : State) :
  let st' := ingest_generated ConvertFrom_Json f fileContent generated st in
  apiRequests st' = apiRequests st /\
  processedCount st' = processedCount st.
Proof.
  unfold ingest_generated. cbv zeta.
  destruct generated as [p|]; [|auto].
  destruct (negb (IsWhiteSpace p)); [|auto].
  destruct (ConvertFrom_Json (strip_fences p)); auto.
Qed.

Lemma generate_note_counts (f : TxtFile) (fileContent : string)
    (signal : option string) (st : State) :
  let st' := generate_note ConvertFrom_Json f fileContent signal st in
  apiRequests st' =
    (apiRequests st +
     if is_note signal then snd (Invoke_GeminiApi (generation f)) else 0)%nat /\
  processedCount st' = processedCount st.
Proof.
  unfold generate_note. cbv zeta.
  destruct (is_note signal); [|split; [simpl; lia|reflexivity]].
  destruct (Invoke_GeminiApi (generation f)) as [outcome sent].
  cbn [snd].
  destruct outcome as [response2|]; [|split; reflexivity].
  pose proof (ingest_generated_counts f fileContent (extract_text response2)
                (count_requests sent st)) as H.
  cbv zeta in H.
  destruct response2 as [r|]; [exact H|].
  destruct (extract_text None); [exact H|split; reflexivity].
Qed.

(** The requests a file costs: none when it cannot be read or is blank,
    else those of the classification call, and those of the generation
    call when the gate accepts. *)
Lemma process_file_requests (st : State) (f : TxtFile) :
  apiRequests (process_file ConvertFrom_Json st f) =
  (apiRequests st +
   match Get_Content f with
   | None => 0
   | Some fileContent =>
       if IsWhiteSpace fileContent then 0
       else snd (Invoke_GeminiApi (classification f)) +
            if is_note (classification_signal f)
            then snd (Invoke_GeminiApi (generation f)) else 0
   end)%nat /\
  processedCount (process_file ConvertFrom_Json st f) = processedCount st + 1.
Proof.
  unfold process_file, classification_signal.
  destruct (Get_Content f) as [fileContent|];
    [|split; [simpl; lia|reflexivity]].
  destruct (IsWhiteSpace fileContent); [split; [simpl; lia|reflexivity]|].
  destruct (Invoke_GeminiApi (classification f)) as [outcome sent].
  cbn [fst snd].
  destruct outcome as [response1|];
    [|split; [simpl; lia|reflexivity]].
  pose proof (generate_note_counts f fileContent (extract_text response1)
                (count_requests sent (count_file st))) as H.
  cbv zeta in H. simpl apiRequests in H. simpl processedCount in H.
  destruct H as [H1 H2].
  destruct response1 as [r|].
  - split; [rewrite H1; lia|exact H2].
  - change (extract_text None) with (@None string) in *.
    split; [simpl; lia|reflexivity].
Qed.

(** X4.  A file the gate rejects costs the requests of the classification
    call and no other: the generator is never called for it. *)
Theorem process_file_rejected_requests (st : State) (f : TxtFile)
    (fileContent : string) :
  Get_Content f = Some fileContent -> IsWhiteSpace fileContent = false ->
  is_note (classification_signal f) = false ->
  apiRequests (process_file ConvertFrom_Json st f)
  = (apiRequests st + snd (Invoke_GeminiApi (classification f)))%nat.
Proof.
  intros Hc Hnb Hgate.
  destruct (process_file_requests st f) as [H _].
  rewrite H, Hc, Hnb, Hgate. lia.
Qed.

(** X5.  A run sends at most [2 * $maxRetries] requests for each text
    file, and its request count never goes down. *)
Theorem process_files_requests_bound (files : list TxtFile) (st : State) :
  (apiRequests st
   <= apiRequests (process_files ConvertFrom_Json st files)
   <= apiRequests st + 2 * maxRetries * List.length files)%nat.
Proof.
  revert st. induction files as [|f files IH]; intros st.
  - simpl. lia.
  - change (process_files ConvertFrom_Json st (f :: files))
      with (process_files ConvertFrom_Json
              (process_file ConvertFrom_Json st f) files).
    specialize (IH (process_file ConvertFrom_Json st f)).
    destruct (process_file_requests st f) as [H _].
    pose proof (Invoke_GeminiApi_sent_le (classification f)) as Hc.
    pose proof (Invoke_GeminiApi_sent_le (generation f)) as Hg.
    assert (apiRequests st
            <= apiRequests (process_file ConvertFrom_Json st f)
            <= apiRequests st + 2 * maxRetries)%nat as Hone.
    { rewrite H. destruct (Get_Content f) as [c|]; [|lia].
      destruct (IsWhiteSpace c); [lia|].
      destruct (is_note (classification_signal f)); lia. }
    simpl List.length. lia.
Qed.

(** X6.  The summary of a run: every text file is counted as processed,
    read or not, and the notes added are no more than the files. *)
Theorem process_files_summary (files : list TxtFile) (st : State) :
  let st' := process_files ConvertFrom_Json st files in
  processedCount st' = processedCount st + Z.of_nat (List.length files) /\
  addedCount st <= addedCount st' <= addedCount st + Z.of_nat (List.length files).
Proof.
  revert st. induction files as [|f files IH]; intros st.
  - simpl. lia.
  - change (process_files ConvertFrom_Json st (f :: files))
      with (process_files ConvertFrom_Json
              (process_file ConvertFrom_Json st f) files).
    specialize (IH (process_file ConvertFrom_Json st f)). cbv zeta in IH.
    destruct (process_file_requests st f) as [_ Hp].
    assert (addedCount st
            <= addedCount (process_file ConvertFrom_Json st f)
            <= addedCount st + 1) as Ha.
    { destruct (process_file_step ConvertFrom_Json st f)
        as [(_ & _ & _ & U)|(note & _ & _ & _ & A & _)]; lia. }
    cbv zeta. simpl List.length. rewrite Nat2Z.inj_succ. lia.
Qed.

End CostFacts.

(* ================================================================== *)
(** * The notes a run adds *)

(** What the normalizer leaves behind on any object. *)
Lemma normalize_filled (fileBaseName fileContent : string) (n : Z)
    (o : PSObject) :
  let o' := normalize fileBaseName fileContent n o in
  get_property o' "text" <> None /\
  Contains o' "title" = true /\ title_is_blank o' = false /\
  Contains o' "status" = true /\ Contains o' "priority" = true /\
  Contains o' "isPrivate" = true.
Proof.
  cbv zeta. unfold normalize. repeat split.
  - rewrite !get_ensure_default_other, get_ensure_title_other by reflexivity.
    apply ensure_text_reads.
  - rewrite !Contains_ensure_default_other by reflexivity.
    apply ensure_title_titled.
  - rewrite !title_is_blank_ensure_default by reflexivity.
    apply ensure_title_titled.
  - rewrite !Contains_ensure_default_other by reflexivity.
    apply Contains_ensure_default.
  - rewrite Contains_ensure_default_other by reflexivity.
    apply Contains_ensure_default.
  - apply Contains_ensure_default.
Qed.

Lemma build_note_well_formed (base content date : string) (n k : Z)
    (o : PSObject) :
  well_formed_note (build_note base content date n k o).
Proof.
  destruct (build_note_id base content date n k o) as [Hid _].
  destruct (build_note_createdAt base content date n k o) as [Hdate _].
  destruct (build_note_order base content date n k o) as [Hord _].
  destruct (normalize_filled base content n (stamp_identity n date o))
    as (Htext & Htitle & Hblank & Hstatus & Hpriority & Hprivate).
  unfold well_formed_note.
  split; [exact (Contains_In _ _ _ Hid)|].
  split; [exact (Contains_In _ _ _ Hdate)|].
  split; [exact (Contains_In _ _ _ Hord)|].
  unfold build_note, stamp_order, title_is_blank.
  rewrite !Contains_Add_Member_other, !get_Add_Member_other by reflexivity.
  repeat split; assumption.
Qed.

Section AddedNotes.

Variable ConvertFrom_Json : string -> option PSObject.

(** A file adds no note or the one note built from what was parsed. *)
Lemma process_file_notes (st : State) (f : TxtFile) :
  allNotes (process_file ConvertFrom_Json st f) = allNotes st \/
  exists fileContent jsonObject,
    Get_Content f = Some fileContent /\
    allNotes (process_file ConvertFrom_Json st f)
    = allNotes st ++ [build_note (BaseName f) fileContent (fileDate f)
                        (nextId st) (currentOrder st) jsonObject].
Proof.
  unfold process_file.
  destruct (Get_Content f) as [fileContent|]; [|left; reflexivity].
  destruct (IsWhiteSpace fileContent); [left; reflexivity|].
  destruct (Invoke_GeminiApi (classification f)) as [outcome sent].
  destruct outcome as [response1|]; [|left; reflexivity].
  assert (forall signal st0,
            allNotes st0 = allNotes st -> nextId st0 = nextId st ->
            currentOrder st0 = currentOrder st ->
            allNotes (generate_note ConvertFrom_Json f fileContent signal st0)
            = allNotes st \/
            exists jsonObject,
              allNotes (generate_note ConvertFrom_Json f fileContent signal st0)
              = allNotes st ++ [build_note (BaseName f) fileContent (fileDate f)
                                  (nextId st) (currentOrder st) jsonObject])
    as Hgen.
  { intros signal st0 H1 H2 H3. unfold generate_note.
    destruct (is_note signal); [|left; exact H1].
    destruct (Invoke_GeminiApi (generation f)) as [outcome2 sent2].
    destruct outcome2 as [response2|]; [|left; exact H1].
    assert (allNotes (ingest_generated ConvertFrom_Json f fileContent
                        (extract_text response2) (count_requests sent2 st0))
            = allNotes st \/
            exists jsonObject,
              allNotes (ingest_generated ConvertFrom_Json f fileContent
                          (extract_text response2) (count_requests sent2 st0))
              = allNotes st ++ [build_note (BaseName f) fileContent (fileDate f)
                                  (nextId st) (currentOrder st) jsonObject])
      as Hing.
    { unfold ingest_generated.
      destruct (extract_text response2) as [p|]; [|left; exact H1].
      destruct (negb (IsWhiteSpace p)); [|left; exact H1].
      destruct (ConvertFrom_Json (strip_fences p)) as [o|]; [|left; exact H1].
      right. exists o. simpl. rewrite H1, H2, H3. reflexivity. }
    destruct response2 as [r|]; [exact Hing|].
    destruct (extract_text None); [exact Hing|left; exact H1]. }
  specialize (Hgen (extract_text response1)
                (count_requests sent (count_file st)) eq_refl eq_refl eq_refl).
  destruct response1 as [r|].
  - destruct Hgen as [H|[o H]]; [left; exact H|right].
    exists fileContent, o. split; [reflexivity|exact H].
  - left. reflexivity.
Qed.

(** What holds of every note [build_note] makes holds of every note a run
    adds. *)
Lemma process_files_added_all (P : PSObject -> Prop) :
  (forall base content date n k o, P (build_note base content date n k o)) ->
  forall files st,
  exists added,
    allNotes (process_files ConvertFrom_Json st files) = allNotes st ++ added /\
    Forall P added.
Proof.
  intros HP files. induction files as [|f files IH]; intros st.
  - exists []. split; [simpl; rewrite app_nil_r; reflexivity|constructor].
  - change (process_files ConvertFrom_Json st (f :: files))
      with (process_files ConvertFrom_Json
              (process_file ConvertFrom_Json st f) files).
    destruct (IH (process_file ConvertFrom_Json st f)) as [added [Hn Hall]].
    destruct (process_file_notes st f) as [H|(c & o & _ & H)].
    + exists added. rewrite Hn, H. auto.
    + exists (build_note (BaseName f) c (fileDate f) (nextId st)
                (currentOrder st) o :: added).
      rewrite Hn, H, <- app_assoc. split; [reflexivity|].
      constructor; [apply HP|exact Hall].
Qed.

(** X7.  Every note a run adds has [id], [createdAt], [order], a title
    that is not blank, [status], [priority] and [isPrivate], and reads a
    text: whatever the generator sent, no added note lacks a field of the
    schema. *)
Theorem run_adds_well_formed_notes (files : list TxtFile) (st : State) :
  exists added,
    allNotes (process_files ConvertFrom_Json st files) = allNotes st ++ added /\
    Forall well_formed_note added.
Proof.
  apply process_files_added_all. exact build_note_well_formed.
Qed.

(** X8.  A file adds at most one note, and the note it adds is dated with
    the last write time of the file, whatever date the generator wrote. *)
Theorem process_file_dates_note (st : State) (f : TxtFile) :
  allNotes (process_file ConvertFrom_Json st f) = allNotes st \/
  exists note,
    allNotes (process_file ConvertFrom_Json st f) = allNotes st ++ [note] /\
    holds note "createdAt" (VStr (fileDate f)).
Proof.
  destruct (process_file_notes st f) as [H|(c & o & _ & H)];
    [left; exact H|right].
  eexists. split; [exact H|]. apply build_note_createdAt.
Qed.

End AddedNotes.

(* ================================================================== *)
(** * Fresh ids *)







Section WholeRun.

Variable ConvertFrom_Json : string -> option PSObject.


(** X11.  What a run leaves in the output file is what the next run
    loads: when the folder is there and the file can be written, the
    notes [load] reads from the file after the run are the notes of the
    collection the run ended with, no more and no fewer. *)
Theorem script_round_trip (env : Environment) :
  folderExists env = true -> writable env = true ->
  Permutation (allNotes (finalState (script ConvertFrom_Json env)))
              (load (finalFile (script ConvertFrom_Json env))).
Proof.
  intros Hfolder Hw. unfold script. rewrite Hfolder. simpl negb. cbv iota.
  destruct (txtFiles env) as [|f files]; [apply Permutation_refl|].
  set (st := process_files ConvertFrom_Json
               (initial_state (load (OutputJsonFile env))) (f :: files)).
  cbv zeta. simpl finalFile. simpl finalState.
  rewrite Hw, save_cases.
  destruct (process_files_stamps ConvertFrom_Json (f :: files)
              (initial_state (load (OutputJsonFile env)))) as [added H].
  cbv zeta in H. destruct H as (Hnotes & _).
  fold st in Hnotes. simpl allNotes in Hnotes.
  destruct (allNotes st) as [|a [|b rest]] eqn:E.
  - symmetry in Hnotes. apply app_eq_nil in Hnotes.
    destruct Hnotes as [Hold _].
    destruct (OutputJsonFile env) as [content|]; [|apply Permutation_refl].
    rewrite Hold. apply Permutation_refl.
  - apply Permutation_refl.
  - apply Sort_Object_perm.
Qed.

(** X12.  A run that finds no folder or no text file stops before the
    loop and before the save: it sends no request, adds no note and
    leaves the output file as it was (and makes none when there was
    none). *)
Theorem script_exits_early (env : Environment) :
  folderExists env = false \/ txtFiles env = [] ->
  ending (script ConvertFrom_Json env) <> Completed /\
  finalFile (script ConvertFrom_Json env) = OutputJsonFile env /\
  apiRequests (finalState (script ConvertFrom_Json env)) = 0%nat /\
  addedCount (finalState (script ConvertFrom_Json env)) = 0.
Proof.
  intros H. unfold script.
  destruct (folderExists env) eqn:Hfolder; simpl negb; cbv iota.
  - destruct H as [H|H]; [discriminate|]. rewrite H.
    repeat split. discriminate.
  - repeat split. discriminate.
Qed.

End WholeRun.

(* ================================================================== *)
(** * Trimmed text *)

Lemma TrimEnd_idempotent (s : string) : TrimEnd (TrimEnd s) = TrimEnd s.
Proof.
  induction s as [|c s IH]; [reflexivity|].
  cbn [TrimEnd]. destruct (TrimEnd s) as [|d r] eqn:E.
  - destruct (is_space c) eqn:Ec; [reflexivity|].
    cbn [TrimEnd]. rewrite Ec. reflexivity.
  - change (TrimEnd (String c (String d r)))
      with (match TrimEnd (String d r) with
            | EmptyString =>
                if is_space c then EmptyString else String c EmptyString
            | String e r' => String c (String e r')
            end).
    rewrite IH. reflexivity.
Qed.

(** [TrimEnd] does not touch the first character of a text that does not
    begin with white space. *)
Lemma TrimStart_TrimEnd (s : string) :
  TrimStart s = s -> TrimStart (TrimEnd s) = TrimEnd s.
Proof.
  destruct s as [|c s]; [reflexivity|].
  cbn [TrimStart]. destruct (is_space c) eqn:Ec.
  - intros H. exfalso.
    assert (forall t, String.length (TrimStart t) <= String.length t)%nat as HS.
    { clear. induction t as [|d t IH]; simpl; [lia|].
      destruct (is_space d); simpl; lia. }
    specialize (HS s). rewrite H in HS. simpl in HS. lia.
  - intros _. cbn [TrimEnd].
    destruct (TrimEnd s); [rewrite Ec|]; cbn [TrimStart]; rewrite Ec;
      reflexivity.
Qed.

Lemma TrimStart_idempotent (s : string) : TrimStart (TrimStart s) = TrimStart s.
Proof.
  induction s as [|c s IH]; [reflexivity|].
  cbn [TrimStart]. destruct (is_space c) eqn:Ec; [exact IH|].
  cbn [TrimStart]. rewrite Ec. reflexivity.
Qed.

Lemma Trim_idempotent (s : string) : Trim (Trim s) = Trim s.
Proof.
  unfold Trim.
  rewrite (TrimStart_TrimEnd (TrimStart s) (TrimStart_idempotent s)).
  apply TrimEnd_idempotent.
Qed.

(** X13.  The text taken out of a reply has no white space at either
    end, so it is blank only when it is empty: for the text of a reply
    the test [IsNullOrWhiteSpace] of the script is a test for the empty
    text. *)
Theorem extract_text_trimmed (response : option Response) (t : string) :
  extract_text response = Some t ->
  Trim t = t /\ (IsWhiteSpace t = true <-> t = EmptyString).
Proof.
  intros H.
  assert (exists raw, t = Trim raw) as [raw ->].
  { unfold extract_text in H.
    destruct response as [r|]; [|discriminate].
    destruct (candidates r) as [[|candidate ?]|]; try discriminate.
    destruct (content candidate) as [c|]; [|discriminate].
    destruct (parts c) as [[|part ?]|]; try discriminate.
    destruct (text part) as [raw|]; [|discriminate].
    injection H as <-. exists raw. reflexivity. }
  split; [apply Trim_idempotent|].
  rewrite <- Trim_empty_iff, Trim_idempotent. tauto.
Qed.

(* ================================================================== *)
(** * The placeholder title *)

Lemma IsWhiteSpace_app (s t : string) :
  IsWhiteSpace (s ++ t) = IsWhiteSpace s && IsWhiteSpace t.
Proof. unfold IsWhiteSpace. apply string_forallb_app. Qed.

Lemma join_space_cons (x : string) (l : list string) :
  IsWhiteSpace (join_space (x :: l))
  = IsWhiteSpace x && IsWhiteSpace (join_space l).
Proof.
  destruct l as [|y l].
  - simpl. rewrite andb_true_r. reflexivity.
  - change (join_space (x :: y :: l))
      with (x ++ " " ++ join_space (y :: l))%string.
    rewrite !IsWhiteSpace_app. reflexivity.
Qed.

(** In a text that is not blank the first piece after leading white
    space holds a character that is not white space. *)
Lemma split_aux_first_word (s : string) :
  IsWhiteSpace s = false ->
  (exists piece pieces,
     split_aux true s = piece :: pieces /\ IsWhiteSpace piece = false) /\
  (exists p1 rest,
     split_aux false s = p1 :: rest /\
     (IsWhiteSpace p1 = false \/
      exists p2 rest', rest = p2 :: rest' /\ IsWhiteSpace p2 = false)).
Proof.
  unfold IsWhiteSpace.
  induction s as [|c s IH]; [discriminate|].
  cbn [string_forallb split_aux]. destruct (is_space c) eqn:Ec.
  - simpl andb. intros H. destruct (IH H) as [[p [ps [E Hp]]] _].
    split; [eauto|].
    exists EmptyString, (split_aux true s). split; [reflexivity|].
    right. eauto.
  - intros _. destruct (split_aux_cons false s) as [p [ps E]].
    rewrite E.
    assert (string_forallb is_space (String c p) = false) as Hp
      by (simpl; rewrite Ec; reflexivity).
    split; eauto 6.
Qed.

Lemma head_not_blank (s : string) :
  IsWhiteSpace s = false ->
  IsWhiteSpace (join_space (firstn 5 (split_ws s))) = false.
Proof.
  intros H. destruct (split_aux_first_word s H)
    as [_ [p1 [rest [E [Hp|[p2 [rest' [-> Hp]]]]]]]];
    unfold split_ws; rewrite E.
  - change (firstn 5 (p1 :: rest)) with (p1 :: firstn 4 rest).
    rewrite join_space_cons, Hp. reflexivity.
  - change (firstn 5 (p1 :: p2 :: rest'))
      with (p1 :: p2 :: firstn 3 rest').
    rewrite !join_space_cons, Hp, andb_false_r. reflexivity.
Qed.

(** X14.  The placeholder title "Note" with the id is never used for a
    file that reaches the normalizer, since such a file is not blank:
    the fallback title is then the file name with its separators
    replaced, or else the head of the text. *)
Theorem fallback_title_without_placeholder
    (fileBaseName fileContent : string) (n : Z) :
  IsWhiteSpace fileContent = false ->
  fallback_title fileBaseName fileContent n =
  if IsWhiteSpace (replace_separators fileBaseName)
  then join_space (firstn 5 (split_ws fileContent))
  else replace_separators fileBaseName.
Proof.
  intros H. unfold fallback_title.
  rewrite (head_not_blank fileContent H). reflexivity.
Qed.

(* ================================================================== *)
(** * From one run to the next *)





Section NextRun.

Variable ConvertFrom_Json : string -> option PSObject.



End NextRun.

(* ================================================================== *)
(** * What the generator wrote *)

Lemma title_is_blank_Add_Member (force : bool) (name : string)
    (v : PSValue) (o : PSObject) :
  string_eqb_ci name "title" = false ->
  title_is_blank (Add_Member force name v o) = title_is_blank o.
Proof.
  intros H. unfold title_is_blank.
  rewrite get_Add_Member_other by exact H. reflexivity.
Qed.

(** X16.  Whatever the generator wrote under a name that is not [id],
    [createdAt] or [order] is in the note that is appended, with the
    value it had - a title only when it is not blank; the names that
    differ from title, status, priority or isPrivate in letter case only
    are left aside. *)
Theorem build_note_keeps_generated (base content date : string) (n k : Z)
    (o : PSObject) (name : string) (v : PSValue) :
  In (name, v) o -> stamped name = false -> respelled name = false ->
  (name = "title" -> title_is_blank o = false) ->
  In (name, v) (build_note base content date n k o).
Proof.
  intros Hin Hst Hsp Hblank.
  unfold stamped in Hst.
  apply orb_false_iff in Hst. destruct Hst as [Hst Horder].
  apply orb_false_iff in Hst. destruct Hst as [Hid Hdate].
  unfold respelled, forced_names in Hsp. simpl in Hsp.
  rewrite orb_false_r in Hsp.
  apply orb_false_iff in Hsp. destruct Hsp as [Ht Hsp].
  apply orb_false_iff in Hsp. destruct Hsp as [Hs Hsp].
  apply orb_false_iff in Hsp. destruct Hsp as [Hp Hi].
  unfold build_note, stamp_order, stamp_identity, normalize.
  apply In_Add_Member_Force; [|exact Horder].
  apply In_ensure_default; [|exact Hi].
  apply In_ensure_default; [|exact Hp].
  apply In_ensure_default; [|exact Hs].
  apply In_ensure_title; [|exact Ht|].
  - apply In_ensure_text.
    apply In_Add_Member_Force; [|exact Hdate].
    apply In_Add_Member_Force; [exact Hin|exact Hid].
  - intros Hk. rewrite title_is_blank_ensure_text.
    rewrite !title_is_blank_Add_Member by reflexivity. auto.
Qed.

(* ================================================================== *)
(** * Sample runs, continued *)

Lemma Invoke_GeminiApi_returns_witness :
  flaky_server 503 "Yes" 2%nat
  = Replied (Some {| candidates := Some [ {| content := Some
      {| parts := Some [ {| text := Some "Yes" |} ] |} |} ] |}) /\
  forall j, (1 <= j < 2)%nat -> retried (flaky_server 503 "Yes" j) = true.
Proof.
  apply (Invoke_GeminiApi_returns (flaky_server 503 "Yes")).
  vm_compute. reflexivity.
Defined.


Lemma process_file_rejected_requests_witness :
  apiRequests (process_file parse_empty_object (initial_state []) rejected_file)
  = (apiRequests (initial_state [])
     + snd (Invoke_GeminiApi (classification rejected_file)))%nat.
Proof.
  apply (process_file_rejected_requests parse_empty_object (initial_state [])
           rejected_file "Permission is hereby granted");
    vm_compute; reflexivity.
Defined.


Lemma script_round_trip_witness :
  Permutation (allNotes (finalState (script parse_empty_object busy_env)))
              (load (finalFile (script parse_empty_object busy_env))).
Proof.
  apply (script_round_trip parse_empty_object busy_env); reflexivity.
Defined.

Lemma script_exits_early_witness :
  ending (script parse_empty_object no_folder_env) <> Completed /\
  finalFile (script parse_empty_object no_folder_env)
  = OutputJsonFile no_folder_env /\
  apiRequests (finalState (script parse_empty_object no_folder_env)) = 0%nat /\
  addedCount (finalState (script parse_empty_object no_folder_env)) = 0.
Proof.
  apply (script_exits_early parse_empty_object no_folder_env).
  left. reflexivity.
Defined.

Lemma extract_text_trimmed_witness :
  Trim "Yes." = "Yes." /\ (IsWhiteSpace "Yes." = true <-> "Yes." = EmptyString).
Proof.
  apply (extract_text_trimmed padded_reply "Yes.").
  vm_compute. reflexivity.
Defined.

Lemma fallback_title_without_placeholder_witness :
  fallback_title "_" "Buy milk" 4 =
  if IsWhiteSpace (replace_separators "_")
  then join_space (firstn 5 (split_ws "Buy milk"))
  else replace_separators "_".
Proof.
  apply (fallback_title_without_placeholder "_" "Buy milk" 4).
  vm_compute. reflexivity.
Defined.

Lemma first_five_words_trimmed_witness :
  join_space (firstn 5 (split_ws "Buy milk and eggs on the way home"))
  = first_five_words "Buy milk and eggs on the way home".
Proof.
  apply (first_five_words_trimmed "Buy milk and eggs on the way home").
  - vm_compute. reflexivity.
  - discriminate.
Defined.

Lemma normalize_derives_title_witness :
  holds (normalize "meeting-notes" "Discuss Q3 roadmap" 1
           [("text", VStr "Discuss Q3 roadmap"); ("title", VNull)])
    "title" (VStr (fallback_title "meeting-notes" "Discuss Q3 roadmap" 1)).
Proof.
  apply (normalize_derives_title "meeting-notes" "Discuss Q3 roadmap" 1).
  right. vm_compute. reflexivity.
Defined.

Lemma has_numeric_id_int_witness :
  has_numeric_id [("title", VStr "old"); ("ID", VInt (-3))] = (0 <=? -3).
Proof.
  apply (has_numeric_id_int [("title", VStr "old"); ("ID", VInt (-3))] (-3)).
  vm_compute. reflexivity.
Defined.

Lemma process_file_appends_witness :
  allNotes (process_file parse_empty_object (initial_state stored_notes)
              fenced_file)
  = allNotes (initial_state stored_notes)
    ++ [build_note (BaseName fenced_file) "Discuss Q3 roadmap"
          (fileDate fenced_file) (nextId (initial_state stored_notes))
          (currentOrder (initial_state stored_notes)) []] /\
  nextId (process_file parse_empty_object (initial_state stored_notes)
            fenced_file)
  = nextId (initial_state stored_notes) + 1 /\
  currentOrder (process_file parse_empty_object (initial_state stored_notes)
                  fenced_file)
  = currentOrder (initial_state stored_notes) + 1.
Proof.
  apply (process_file_appends parse_empty_object (initial_state stored_notes)
           fenced_file "Discuss Q3 roadmap"
           (fence ++ "json" ++ line_feed ++ "{}" ++ line_feed ++ fence)%string
           []);
    vm_compute; reflexivity.
Defined.


Lemma build_note_keeps_generated_witness :
  In ("dueDate", VStr "2024-09-01")
    (build_note "list" "Buy milk" sample_date 9 0 sample_note).
Proof.
  apply (build_note_keeps_generated "list" "Buy milk" sample_date 9 0
           sample_note "dueDate" (VStr "2024-09-01")).
  - vm_compute. tauto.
  - vm_compute. reflexivity.
  - vm_compute. reflexivity.
  - discriminate.
Defined.
